(** * ezSMT / smt_switch: a shallow embedding of the dispatch layer

  The development follows the layout of the repository:
  - [py]: the fragment of the host language the code relies on (dynamic
    values, exceptions, positional-argument binding);
  - [sorts], [smtutils]: the two small helper modules the sources import;
  - [functions]: [src/functions.py], the class-based operator taxonomy;
  - [BoolectorSolver], [CVC4Solver]: the two backend adapters;
  - [smt]: [src/smt_switch/src/smt.py], the facade with its process-wide
    solver cache.
  The properties are stated after the definitions. *)

From stdpp Require Import base numbers option list strings gmap.

Local Open Scope string_scope.
Local Open Scope Z_scope.

(** ** Host-language values *)

(** Sorts are plain value data; [BitVec] carries its width. *)
Inductive sort :=
| Bool
| Int
| Real
| BitVec (width : Z).

Global Instance sort_eq_dec : EqDecision sort.
Proof. solve_decision. Defined.

(** The three adapter classes the facade can instantiate. *)
Inductive solver_class := CVC4Solver_cls | Z3Solver_cls | BoolectorSolver_cls.

Global Instance solver_class_eq_dec : EqDecision solver_class.
Proof. solve_decision. Defined.

(** The operator classes of [src/functions.py]; [extract] is the one class
    whose instances carry parameters. *)
Inductive FunctionBase :=
| No_op | Equals | Not | And | Or | Ite | Sub | Plus | LT | LEQ | GT | GEQ
| extract (_ub _lb : Z)
| bvand | bvor | bvadd | bvmul | bvudiv | bvurem | bvshl | bvlshr
| bvnot | bvneg.

(** Exceptions, with the leading words of the message the source gives. *)
Inductive exn :=
| ValueError (msg : string)
| TypeError (msg : string)
| AttributeError (attr : string)
| KeyError (key : string)
| IndexError (msg : string)
| RuntimeError (msg : string)
| NotImplementedError (msg : string)
| AssertionError.

(** Python values as the sources handle them.  A term is the object built by
  [terms.XTerm(solver, op, solver_term, sort, args)]; a native handle is
  recorded as the native call that produced it; [PyMethod self name] is the
  built-in method [name] looked up on [self] (what [[].sort] evaluates
  to). *)
#[warnings="-register-all"] Inductive pyval :=
| PyNone
| PyBool (b : bool)
| PyInt (z : Z)
| PyStr (s : string)
| PyList (items : list pyval)
| PyTuple (items : list pyval)
| PyType (name : string)
| PySort (s : sort)
| PyFunction (name : string)
| PyFun (f : FunctionBase)
| PyOperator (func : pyval) (args : list pyval)
| PySolver (cls : solver_class) (ref : nat)
| PyTerm (solver : pyval) (op : pyval) (solver_term : pyval) (srt : sort)
       (children : list pyval)
| PyNative (call : string) (args : list pyval)
| PyResult (wrapper : string) (payload : pyval)
| PyMethod (self : pyval) (name : string).

Module py.

Inductive result (A : Type) :=
| Return (a : A)
| Raise (e : exn).
Global Arguments Return {A} a.
Global Arguments Raise {A} e.

Global Instance result_ret : MRet result := fun _ a => Return a.
Global Instance result_bind : MBind result := fun _ _ f m =>
  match m with
  | Return a => f a
  | Raise e => Raise e
  end.

Global Instance result_fmap : FMap result := fun _ _ f m =>
  match m with
  | Return a => Return (f a)
  | Raise e => Raise e
  end.

Definition is_Return {A} (r : result A) : bool :=
  match r with Return _ => true | Raise _ => false end.

(** [len(args)] as a Python integer. *)
Definition len {A} (l : list A) : Z := Z.of_nat (length l).

(** [isinstance(v, list)] *)
Definition is_list (v : pyval) : bool :=
  match v with PyList _ => true | _ => false end.

(** Truth value of an object: [None], [False], zero and empty containers
    are false; instances of classes without [__bool__] or [__len__]
    (sorts, terms, operators, handles) are true. *)
Definition truthy (v : pyval) : bool :=
  match v with
  | PyNone => false
  | PyBool b => b
  | PyInt z => negb (z =? 0)
  | PyStr s => negb (Nat.eqb (String.length s) 0)
  | PyList l | PyTuple l => negb (Nat.eqb (length l) 0)
  | _ => true
  end.

(** [x and y] *)
Definition and_ (x y : pyval) : pyval := if truthy x then y else x.

(** [functools.reduce(f, l)] without an initial value. *)
Definition reduce (f : pyval -> pyval -> pyval) (l : list pyval) : result pyval :=
  match l with
  | [] => Raise (TypeError "reduce() of empty sequence with no initial value")
  | x :: xs => Return (foldl f x xs)
  end.

(** [l[:n]] and [l[n:]] for an integer [n] of either sign. *)
Definition slice_to {A} (n : Z) (l : list A) : list A :=
  if n <? 0 then take (Z.to_nat (len l + n)) l else take (Z.to_nat n) l.
Definition slice_from {A} (n : Z) (l : list A) : list A :=
  if n <? 0 then drop (Z.to_nat (len l + n)) l else drop (Z.to_nat n) l.

(** Attribute reads used by the sources.  Besides the terms, which carry
    their sort, the values with an attribute [sort] are the lists and the
    class [list] itself, where it is the built-in sorting method. *)
Definition attr_sort (v : pyval) : option pyval :=
  match v with
  | PyTerm _ _ _ s _ => Some (PySort s)
  | PyList _ => Some (PyMethod v "sort")
  | PyType "list" => Some (PyMethod v "sort")
  | _ => None
  end.
Definition attr_solver_term (v : pyval) : option pyval :=
  match v with PyTerm _ _ h _ _ => Some h | _ => None end.
Definition attr_solver (v : pyval) : option pyval :=
  match v with PyTerm s _ _ _ _ => Some s | _ => None end.

(** [v.name]: raises [AttributeError] when the attribute is absent. *)
Definition getattr (name : string) (a : option pyval) : result pyval :=
  match a with Some x => Return x | None => Raise (AttributeError name) end.

(** [type(v)] for the host literals that reach the assertion code. *)
Definition type_ (v : pyval) : pyval :=
  match v with
  | PyNone => PyType "NoneType"
  | PyBool _ => PyType "bool"
  | PyInt _ => PyType "int"
  | PyStr _ => PyType "str"
  | PyList _ => PyType "list"
  | PyTuple _ => PyType "tuple"
  | PyType _ => PyType "type"
  | PySort _ => PyType "Sort"
  | PyFunction _ => PyType "function"
  | PyFun _ => PyType "FunctionBase"
  | PyOperator _ _ => PyType "operator"
  | PySolver _ _ => PyType "Solver"
  | PyTerm _ _ _ _ _ => PyType "Term"
  | PyNative _ _ => PyType "native"
  | PyResult _ _ => PyType "Result"
  | PyMethod _ _ => PyType "builtin_function_or_method"
  end.

(** What a function does when it finishes: it returns a value, raises, or
    ends in a tail call into the dispatch machinery ([return f(...)]). *)
Inductive outcome :=
| Value (v : pyval)
| Exception (e : exn)
| Call_apply_fun (fn : pyval) (args : list pyval)
| Call_solver_apply_fun (solver : pyval) (fn : pyval) (args : list pyval).

End py.
Import py.

(** ** sorts *)

Module sorts.

(** Modelled from the spec: [sorts.BitVec.__init__] is not under [src/];
    section 4.1 has "BitVec width must be >= 1, fails with InvalidSort
    otherwise". *)
Definition BitVec_init (width : Z) : result sort :=
  if 1 <=? width then Return (BitVec width)
  else Raise (ValueError "InvalidSort").

(** [sort.params]: the width for bit-vectors, nothing otherwise. *)
Definition params (s : sort) : list pyval :=
  match s with BitVec w => [PyInt w] | _ => [] end.

End sorts.

(** ** smtutils *)

Module smtutils.

(** The sort of an argument that is a term. *)
Definition term_sort (arg : pyval) : option pyval :=
  match arg with PyTerm _ _ _ s _ => Some (PySort s) | _ => None end.

(** Modelled from the spec: [smtutils.sorts_list] is not under [src/];
    section 4.2 gives [outputSort] the sorts of the argument terms, and the
    callers index the result per argument and filter the entries that are
    [None], so it is the list that holds, per argument, the sort of a term
    and [None] for any other value. *)
Definition sorts_list (args : list pyval) : list pyval :=
  map (fun arg => default PyNone (term_sort arg)) args.

End smtutils.

(** ** functions ([src/functions.py]) *)

Module functions.

(** The upper end of an arity range: a number or [math.inf]. *)
Inductive bound := fin (n : Z) | inf.

(** The class attribute [arity], as the pair of its ['min'] and ['max']
    entries. *)
Definition arity (f : FunctionBase) : Z * bound :=
  match f with
  | No_op => (0, fin 0)
  | Equals => (2, fin 2)
  | Not => (1, fin 1)
  | And | Or | Plus => (2, inf)
  | Ite => (3, fin 3)
  | Sub | LT | LEQ | GT | GEQ => (2, fin 2)
  | extract _ _ => (1, fin 1)
  | bvand | bvor | bvadd | bvmul | bvudiv | bvurem | bvshl | bvlshr => (2, fin 2)
  | bvnot | bvneg => (1, fin 1)
  end.

Definition arity_min (f : FunctionBase) : Z := fst (arity f).
Definition arity_max (f : FunctionBase) : bound := snd (arity f).

(** [n > b] for a bound [b]. *)
Definition exceeds (n : Z) (b : bound) : bool :=
  match b with fin m => m <? n | inf => false end.

(** [extract.width] *)
Definition width (ub lb : Z) : Z := ub - lb + 1.

(** The property [params]: empty unless overloaded. *)
Definition params (f : FunctionBase) : list pyval :=
  match f with
  | extract ub lb => [PyInt ub; PyInt lb]
  | _ => []
  end.

(** [__class__.__name__], which [__eq__] compares together with [params]. *)
Definition class_name (f : FunctionBase) : string :=
  match f with
  | No_op => "No_op" | Equals => "Equals" | Not => "Not" | And => "And"
  | Or => "Or" | Ite => "Ite" | Sub => "Sub" | Plus => "Plus" | LT => "LT"
  | LEQ => "LEQ" | GT => "GT" | GEQ => "GEQ" | extract _ _ => "extract"
  | bvand => "bvand" | bvor => "bvor" | bvadd => "bvadd" | bvmul => "bvmul"
  | bvudiv => "bvudiv" | bvurem => "bvurem" | bvshl => "bvshl"
  | bvlshr => "bvlshr" | bvnot => "bvnot" | bvneg => "bvneg"
  end.

Definition is_not_None (v : pyval) : bool :=
  match v with PyNone => false | _ => true end.

(** [args[i].sort] *)
Definition arg_sort (i : nat) (args : list pyval) : result pyval :=
  match args !! i with
  | Some a => getattr "sort" (attr_sort a)
  | None => Raise (IndexError "tuple index out of range")
  end.

(** [Ite.osort].  The guard on the argument count reads the attribute
    [self.__class__name], which no instance has, so that branch ends in an
    [AttributeError]; the message of the consistency error formats
    [args[1].sort] and [args[2].sort] before the error is raised. *)
Definition Ite_osort (args : list pyval) : result pyval :=
  if negb (Nat.eqb (length args) 3) then
    Raise (AttributeError "_Ite__class__name")
  else
    let arg_sorts := smtutils.sorts_list args in
    r ← reduce and_ (drop 1 arg_sorts);
    if negb (truthy r) then
      _ ← arg_sort 1 args;
      _ ← arg_sort 2 args;
      Raise (ValueError "Ite needs to have a consistent output sort.")
    else
      match List.filter is_not_None (drop 1 arg_sorts) with
      | [] => Raise (ValueError "Can't determine output sort based on inputs")
      | s :: _ => Return s
      end.

(** [Sub.osort] and [Plus.osort], for the class named [cls]. *)
Definition first_arg_osort (cls : string) (args : list pyval) : result pyval :=
  if Nat.eqb (length args) 0 then
    Raise (AttributeError ("_" +:+ cls +:+ "__class__name"))
  else arg_sort 0 args.

(** [_bvbinops.osort] *)
Definition bvbinops_osort (args : list pyval) : result pyval :=
  let arg_sorts := smtutils.sorts_list args in
  r ← reduce and_ arg_sorts;
  if negb (truthy r) then Raise (ValueError "bvadd requires consistent sorts")
  else
    match arg_sorts with
    | s :: _ => Return s
    | [] => Raise (IndexError "list index out of range")
    end.

(** [_bvunops.osort] *)
Definition bvunops_osort (args : list pyval) : result pyval :=
  if negb (Nat.eqb (length args) 1) then
    Raise (ValueError "Incorrect number of arguments to unary operator")
  else arg_sort 0 args.

(** The method [osort] of each class. *)
Definition osort (f : FunctionBase) (args : list pyval) : result pyval :=
  match f with
  | No_op =>
      if Nat.eqb (length args) 0 then
        Raise (ValueError "No_op is used when constructing constants.")
      else arg_sort 0 args
  | Equals | Not | And | Or | LT | LEQ | GT | GEQ => Return (PySort Bool)
  | Ite => Ite_osort args
  | Sub => first_arg_osort "Sub" args
  | Plus => first_arg_osort "Plus" args
  | extract ub lb => PySort <$> sorts.BitVec_init (width ub lb)
  | bvand | bvor | bvadd | bvmul | bvudiv | bvurem | bvshl | bvlshr =>
      bvbinops_osort args
  | bvnot | bvneg => bvunops_osort args
  end.

(** The leading [if args and isinstance(args[0], list): args = args[0]]. *)
Definition unpack (args : list pyval) : list pyval :=
  match args with
  | PyList l :: _ => l
  | _ => args
  end.

Definition is_term (v : pyval) : bool :=
  match v with PyTerm _ _ _ _ _ => true | _ => false end.

(** [args[0].solver.apply_fun(self, *args)] *)
Definition dispatch (self : FunctionBase) (first : pyval) (args : list pyval) : outcome :=
  match attr_solver first with
  | Some s => Call_solver_apply_fun s (PyFun self) args
  | None => Exception (AttributeError "solver")
  end.

(** [FunctionBase.__call__] *)
Definition FunctionBase_call (strict : bool) (self : FunctionBase) (args : list pyval) : outcome :=
  if strict then Exception (ValueError "Functions are not callable in strict mode.")
  else
    let args := unpack args in
    match args with
    | [] => Exception (ValueError "Incorrect number of arguments for function")
    | _ :: _ =>
        match List.filter is_term args with
        | [] => Exception (ValueError "There needs to be at least one argument of type [Solver Name]Term")
        | t :: _ => dispatch self t args
        end
    end.

(** [And.__call__] and [Or.__call__]; [unit] is [True] for [And] and [False]
    for [Or]. *)
Definition nary_call (unit : bool) (strict : bool) (self : FunctionBase) (args : list pyval) : outcome :=
  if strict then Exception (ValueError "Functions are not callable in strict mode.")
  else
    let args := unpack args in
    match args with
    | first :: _ :: _ => dispatch self first args
    | [x] => Value x
    | [] => Value (PyBool unit)
    end.

Definition And_call := nary_call true.
Definition Or_call := nary_call false.

(** Calling an operator instance: [And] and [Or] overload [__call__]. *)
Definition call (strict : bool) (self : FunctionBase) (args : list pyval) : outcome :=
  match self with
  | And => And_call strict And args
  | Or => Or_call strict Or args
  | _ => FunctionBase_call strict self args
  end.

End functions.

(** ** The native engines

    The engines are opaque: a handle is the record [PyNative call args] of the
    native call that built it, and the verdict of a native satisfiability
    check is an input of the adapter's [check_sat]. *)

Inductive sat_result := SAT | UNSAT | UNKNOWN.

Global Instance sat_result_eq_dec : EqDecision sat_result.
Proof. solve_decision. Defined.

(** Stateful adapter code: a result together with the state the call leaves
    behind, which is kept when the call raises. *)
Definition M (S A : Type) : Type := S -> result A * S.

Definition ret {S A} (a : A) : M S A := fun s => (Return a, s).
Definition raise {S A} (e : exn) : M S A := fun s => (Raise e, s).
Definition bind {S A B} (m : M S A) (k : A -> M S B) : M S B :=
  fun s => match m s with
           | (Return a, s') => k a s'
           | (Raise e, s') => (Raise e, s')
           end.
Definition lift {S A} (r : result A) : M S A := fun s => (r, s).
Definition modify {S} (f : S -> S) : M S unit := fun s => (Return (), f s).

(** [for x in l: body(x)] *)
Fixpoint for_each {S A} (body : A -> M S unit) (l : list A) : M S unit :=
  match l with
  | [] => ret ()
  | x :: xs => bind (body x) (fun _ => for_each body xs)
  end.

(** Modelled from the spec: [solvers/solverbase.py] is not under [src/];
    section 4.4 tells "no satisfiability check has run yet" apart from the two
    verdicts, so the attribute [sat] of a new adapter instance is [None]. *)
Definition SolverBase_sat : option bool := None.

(** A session with an adapter: the methods the client calls on the instance,
    in order, with the engine's verdict for each check. *)
Inductive call :=
| call_Assert (constraints : pyval)
| call_check_sat (native : sat_result)
| call_set_logic (logicstr : pyval)
| call_set_option (optionstr value : pyval)
| call_reset.

(** The verdict of the most recent check of a session, if there was one. *)
Fixpoint last_check (calls : list call) : option sat_result :=
  match calls with
  | [] => None
  | c :: rest =>
      match last_check rest with
      | Some r => Some r
      | None => match c with call_check_sat r => Some r | _ => None end
      end
  end.

(** ** BoolectorSolver ([src/smt_switch/src/solvers/BoolectorSolver.py]) *)

Module BoolectorSolver.

(** The instance: the list [_assertions], what the engine [_btor] was given
    through [Assert] and [Set_opt], and the attribute [sat]. *)
Record t := {
  _assertions : list pyval;
  _btor_asserted : list pyval;
  _btor_opts : list (string * bool);
  sat : option bool;
}.

(** [__init__]: a new engine and an empty assertion list. *)
Definition init : t :=
  {| _assertions := []; _btor_asserted := []; _btor_opts := [];
     sat := SolverBase_sat |}.

(** [reset] runs [__init__] again on the same object: a new engine and an
    empty assertion list; [sat] is not touched. *)
Definition reset (s : t) : t :=
  {| _assertions := []; _btor_asserted := []; _btor_opts := []; sat := sat s |}.

(** [check_sat], for the verdict [native] of [self._btor.Sat()]. *)
Definition check_sat (native : sat_result) (s : t) : bool * t :=
  let r := if decide (native = SAT) then true else false in
  (r, {| _assertions := _assertions s; _btor_asserted := _btor_asserted s;
         _btor_opts := _btor_opts s; sat := Some r |}).

Definition _BoolectorLogics : list string := ["QF_BV"; "QF_ABV"].

(** [set_logic] *)
Definition set_logic (logicstr : pyval) : M t unit :=
  match logicstr with
  | PyStr l =>
      if decide (l ∈ _BoolectorLogics) then ret ()
      else raise (ValueError "Boolector does not support")
  | _ => raise (ValueError "Boolector does not support")
  end.

(** The type that [hash(v)] refuses, if it does: a list; an instance of an
    operator class, since [FunctionBase] defines [__eq__] and no [__hash__];
    a tuple, when one of its items is refused.  The instances of the classes
    that are not under [src/] (sorts, terms, operator objects, handles) are
    taken to hash as instances of a class without [__eq__] do. *)
Fixpoint unhashable (v : pyval) : option string :=
  match v with
  | PyList _ => Some "list"
  | PyFun f => Some (functions.class_name f)
  | PyTuple l =>
      (fix first (l : list pyval) : option string :=
         match l with
         | [] => None
         | x :: xs =>
             match unhashable x with
             | Some n => Some n
             | None => first xs
             end
         end) l
  | _ => None
  end.

(** [set_option]: the test [optionstr in self._BoolectorOptions] hashes the
    name, and only ['produce-models'] is in [_BoolectorOptions]. *)
Definition set_option (optionstr value : pyval) : M t unit :=
  match unhashable optionstr with
  | Some n => raise (TypeError ("unhashable type: '" +:+ n +:+ "'"))
  | None =>
      match optionstr with
      | PyStr o =>
          if decide (o = "produce-models") then
            modify (fun s =>
              {| _assertions := _assertions s; _btor_asserted := _btor_asserted s;
                 _btor_opts := _btor_opts s ++ [("BTOR_OPT_MODEL_GEN", truthy value)];
                 sat := sat s |})
          else ret ()
      | _ => ret ()
      end
  end.

(** [declare_const] *)
Definition declare_const (self : pyval) (name : pyval) (srt : sort) : result pyval :=
  btorsort ← match srt with
             | BitVec w => Return (PyNative "BitVecSort" [PyInt w])
             | Bool => Return (PyNative "BitVecSort" [PyInt 1])
             | _ => Raise (KeyError "sort")
             end;
  Return (PyTerm self (PyFun No_op) (PyNative "Var" [btorsort; name]) srt []).

(** [theory_const] *)
Definition theory_const (self : pyval) (srt : sort) (value : pyval) : result pyval :=
  match srt with
  | BitVec _ | Bool =>
      Return (PyTerm self (PyFun No_op)
                (PyNative "Const" (value :: sorts.params srt)) srt [])
  | _ => Raise (KeyError "sort")
  end.

(** The methods [And] and [Or]: a left fold of the binary native operation. *)
Definition nary (native : string) (args : list pyval) : result pyval :=
  match args with
  | [] => Raise (IndexError "tuple index out of range")
  | _ => reduce (fun x y => PyNative native [x; y]) (functions.unpack args)
  end.

Section Native.

(** What the adapter reads from a native node: [node_bits s] is
    [int(s.bits, base=2)] when [s] has the attribute [bits], and
    [node_width bv] is [bv.width]. *)
Variable node_bits : pyval -> option Z.
Variable node_width : pyval -> Z.

(** The entries for the shifts: [lambda bv, s: ...]. *)
Definition shift (native : string) (nargs : list pyval) : result pyval :=
  match nargs with
  | [bv; s] =>
      match node_bits s with
      | Some n => Return (PyNative native [bv; PyInt n])
      | None =>
          if node_width bv <=? 0 then Raise (ValueError "math domain error")
          else Return (PyNative native
                         [bv; PyNative "Const" [s; PyInt (Z.log2_up (node_width bv))]])
      end
  | _ => Raise (TypeError "<lambda>() takes 2 positional arguments")
  end.

(** [self._BoolectorFuns[fun.__class__]] applied to [nargs], for the classes that
    [src/functions.py] defines. *)
Definition _BoolectorFuns (f : FunctionBase) (nargs : list pyval) : result pyval :=
  match f with
  | Equals => Return (PyNative "Eq" nargs)
  | And => nary "And" nargs
  | Or => nary "Or" nargs
  | Ite => Return (PyNative "Cond" nargs)
  | Not => Return (PyNative "Not" nargs)
  | extract _ _ => Return (PyNative "Slice" nargs)
  | bvand => Return (PyNative "And" nargs)
  | bvor => Return (PyNative "Or" nargs)
  | bvadd => Return (PyNative "Add" nargs)
  | bvmul => Return (PyNative "Mul" nargs)
  | bvudiv => Return (PyNative "Udiv" nargs)
  | bvurem => Return (PyNative "Urem" nargs)
  | bvshl => shift "Sll" nargs
  | bvlshr => shift "Srl" nargs
  | bvnot => Return (PyNative "Not" nargs)
  | bvneg => Return (PyNative "Neg" nargs)
  | No_op | Sub | Plus | LT | LEQ | GT | GEQ => Raise (KeyError (functions.class_name f))
  end.

(** The guard of [apply_fun]:
    [config.strict and len(args) < min or len(args) > max]. *)
Definition arity_violation (strict : bool) (f : FunctionBase) (args : list pyval) : bool :=
  (strict && (len args <? functions.arity_min f))
  || functions.exceeds (len args) (functions.arity_max f).

(** [apply_fun].  On terms [osort] returns a sort whenever it returns.  For
    [bvnot] and [bvneg] given a list it returns the sorting method of the
    list, which the source stores as the sort of the term it builds; a term
    of [pyval] carries a sort, so that term lies outside the model and the
    last case of the inner match stands for it. *)
Definition apply_fun (strict : bool) (self : pyval) (fn : pyval) (args : list pyval) : result pyval :=
  match fn with
  | PyFun f =>
      if arity_violation strict f args then
        Raise (ValueError "In strict mode you must respect function arity")
      else
        match args with
        | [] => Raise (IndexError "tuple index out of range")
        | _ =>
            let args := functions.unpack args in
            let solver_args := map (fun arg => default arg (attr_solver_term arg)) args in
            btor_expr ← _BoolectorFuns f (solver_args ++ functions.params f);
            s ← functions.osort f args;
            match s with
            | PySort srt => Return (PyTerm self fn btor_expr srt args)
            | _ => Raise (TypeError "sort expected")
            end
        end
  | _ => Raise (AttributeError "arity")
  end.

End Native.

(** The body of both branches of [Assert], for one constraint. *)
Definition assert_one (constraint : pyval) : M t unit :=
  bind (lift (getattr "sort" (attr_sort constraint))) (fun srt =>
  match srt with
  | PySort Bool =>
      bind (lift (getattr "solver_term" (attr_solver_term constraint))) (fun h =>
      modify (fun s =>
        {| _assertions := _assertions s ++ [h];
           _btor_asserted := _btor_asserted s ++ [h];
           _btor_opts := _btor_opts s; sat := sat s |}))
  | _ => raise (ValueError "Can only assert formulas of sort Bool.")
  end).

(** [Assert] *)
Definition Assert (constraints : pyval) : M t unit :=
  match constraints with
  | PyList l => for_each assert_one l
  | _ => assert_one constraints
  end.

(** [assertions] *)
Definition assertions (s : t) : list pyval := _assertions s.

(** [get_value] *)
Definition get_value (var : pyval) (s : t) : result pyval :=
  match sat s with
  | Some true =>
      srt ← getattr "sort" (attr_sort var);
      match srt with
      | PySort (BitVec _) | PySort Bool =>
          h ← getattr "solver_term" (attr_solver_term var);
          Return (PyResult "BoolectorBitVecResult" h)
      | _ => Raise (KeyError "sort")
      end
  | Some false => Raise (RuntimeError "Problem is unsat")
  | None => Raise (RuntimeError "Solver has not been run")
  end.

(** One call of a session, and a whole session from a new instance. *)
Definition step (s : t) (c : call) : t :=
  match c with
  | call_Assert x => snd (Assert x s)
  | call_check_sat native => snd (check_sat native s)
  | call_set_logic l => snd (set_logic l s)
  | call_set_option o v => snd (set_option o v s)
  | call_reset => reset s
  end.

Definition run (calls : list call) : t := foldl step init calls.

End BoolectorSolver.

(** ** CVC4Solver ([src/smt_switch/src/solvers/CVC4Solver.py]) *)

Module CVC4Solver.

(** The instance: what the engine [_smt] holds (assertions, logic, options)
    and the attribute [sat]. *)
Record t := {
  _smt_assertions : list pyval;
  _smt_logic : option pyval;
  _smt_options : list (pyval * pyval);
  sat : option bool;
}.

(** [__init__]: a new engine. *)
Definition init : t :=
  {| _smt_assertions := []; _smt_logic := None; _smt_options := [];
     sat := SolverBase_sat |}.

(** [reset]: the engine starts over; [sat] is not touched. *)
Definition reset (s : t) : t :=
  {| _smt_assertions := []; _smt_logic := None; _smt_options := []; sat := sat s |}.

(** [Result.isSat()]: the engine's enumeration has UNSAT = 0, SAT = 1 and
    SAT_UNKNOWN = 2. *)
Definition isSat (native : sat_result) : Z :=
  match native with UNSAT => 0 | SAT => 1 | UNKNOWN => 2 end.

(** [check_sat], for the verdict [native] of [self._smt.checkSat()]. *)
Definition check_sat (native : sat_result) (s : t) : bool * t :=
  let r := isSat native =? 1 in
  (r, {| _smt_assertions := _smt_assertions s; _smt_logic := _smt_logic s;
         _smt_options := _smt_options s; sat := Some r |}).

(** [set_logic] *)
Definition set_logic (logicstr : pyval) : M t unit :=
  modify (fun s =>
    {| _smt_assertions := _smt_assertions s; _smt_logic := Some logicstr;
       _smt_options := _smt_options s; sat := sat s |}).

(** [set_option] *)
Definition set_option (optionstr value : pyval) : M t unit :=
  modify (fun s =>
    {| _smt_assertions := _smt_assertions s; _smt_logic := _smt_logic s;
       _smt_options := _smt_options s ++ [(optionstr, PyNative "SExpr" [value])];
       sat := sat s |}).

(** An entry of [_CVC4Funs]: an integer kind, or the class of an indexer. *)
Inductive cvc4fun := kind (name : string) | indexer (name : string).

Definition _CVC4Funs : list (string * cvc4fun) :=
  [("Extract", indexer "BitVectorExtract");
   ("Concat", kind "BITVECTOR_CONCAT");
   ("Zero_extend", kind "BITVECTOR_ZERO_EXTEND");
   ("Equals", kind "EQUAL"); ("Not", kind "NOT"); ("And", kind "AND");
   ("Or", kind "OR"); ("Ite", kind "ITE"); ("Sub", kind "MINUS");
   ("Add", kind "PLUS"); ("LT", kind "LT"); ("LEQ", kind "LEQ");
   ("GT", kind "GT"); ("GEQ", kind "GEQ");
   ("BVAnd", kind "BITVECTOR_AND"); ("BVOr", kind "BITVECTOR_OR");
   ("BVXor", kind "BITVECTOR_XOR"); ("BVAdd", kind "BITVECTOR_PLUS");
   ("BVSub", kind "BITVECTOR_SUB"); ("BVMul", kind "BITVECTOR_MULT");
   ("BVUdiv", kind "BITVECTOR_UDIV"); ("BVUrem", kind "BITVECTOR_UREM");
   ("BVShl", kind "BITVECTOR_SHL"); ("BVAshr", kind "BITVECTOR_ASHR");
   ("BVLshr", kind "BITVECTOR_LSHR"); ("BVUlt", kind "BITVECTOR_ULT");
   ("BVUle", kind "BITVECTOR_ULE"); ("BVUgt", kind "BITVECTOR_UGT");
   ("BVUge", kind "BITVECTOR_UGE"); ("BVSlt", kind "BITVECTOR_SLT");
   ("BVSle", kind "BITVECTOR_SLE"); ("BVSgt", kind "BITVECTOR_SGT");
   ("BVSge", kind "BITVECTOR_SGE"); ("BVNot", kind "BITVECTOR_NOT");
   ("BVNeg", kind "BITVECTOR_NEG")].

(** [self._CVC4Funs[op.func]] *)
Definition lookup_fun (op : pyval) : result cvc4fun :=
  match op with
  | PyOperator (PyFunction name) _ =>
      match (list_to_map _CVC4Funs : gmap string cvc4fun) !! name with
      | Some f => Return f
      | None => Raise (KeyError name)
      end
  | PyOperator _ _ => Raise (KeyError "func")
  | _ => Raise (AttributeError "func")
  end.

(** [isinstance(x, terms.CVC4Term)]: a term that a CVC4 adapter built. *)
Definition is_CVC4Term (v : pyval) : bool :=
  match v with
  | PyTerm (PySolver CVC4Solver_cls _) _ _ _ _ => true
  | _ => false
  end.

Section Terms.

(** The constructor [terms.CVC4Term(solver, op, solver_term, args)] is not
    under [src/]; the adapter is read for any such constructor. *)
Variable CVC4Term : pyval -> pyval -> pyval -> list pyval -> result pyval.

(** [functions.No_op], an operator without arguments. *)
Definition No_op_operator : pyval := PyOperator (PyFunction "No_op") [].

(** [declare_const] *)
Definition declare_const (self : pyval) (name : pyval) (srt : sort) : result pyval :=
  let cvc4sort :=
    match srt with
    | BitVec w => PyNative "mkBitVectorType" [PyInt w]
    | Int => PyNative "integerType" []
    | Real => PyNative "realType" []
    | Bool => PyNative "booleanType" []
    end in
  CVC4Term self No_op_operator (PyNative "mkVar" [name; cvc4sort]) [PySort srt].

(** [theory_const], through the four local constant builders. *)
Definition theory_const (self : pyval) (srt : sort) (value : pyval) : result pyval :=
  let cvc4tconst :=
    match srt with
    | BitVec w => PyNative "mkConst" [PyNative "BitVector" [PyInt w; value]]
    | Int => PyNative "mkConst" [PyNative "Rational" [value]]
    | Real => PyNative "mkConst" [PyNative "Rational" [PyNative "Fraction" [value]]]
    | Bool => PyNative "mkBoolConst" [value]
    end in
  CVC4Term self No_op_operator cvc4tconst [PySort srt].

(** [op.args] *)
Definition operator_args (op : pyval) : list pyval :=
  match op with PyOperator _ a => a | _ => [] end.

(** The handles of the arguments: in strict mode every argument must be a
    term; otherwise the last CVC4 term among them lends its sort to the bare
    values. *)
Definition solver_args (strict : bool) (self : pyval) (args : list pyval) : result (list pyval) :=
  if strict then
    mapM (fun arg => getattr "solver_term" (attr_solver_term arg)) args
  else
    match last (List.filter is_CVC4Term args) with
    | None => Raise (IndexError "list index out of range")
    | Some cvc4term =>
        mapM (fun arg =>
                if is_CVC4Term arg then getattr "solver_term" (attr_solver_term arg)
                else
                  s ← getattr "sort" (attr_sort cvc4term);
                  match s with
                  | PySort srt =>
                      c ← theory_const self srt arg;
                      getattr "solver_term" (attr_solver_term c)
                  | _ => Raise (TypeError "sort expected")
                  end)
             args
    end.

(** [apply_fun]; the arity guard is commented out in the source. *)
Definition apply_fun (strict : bool) (self : pyval) (op : pyval) (args : list pyval) : result pyval :=
  cvc4fun ← lookup_fun op;
  match args with
  | [] => Raise (IndexError "tuple index out of range")
  | _ =>
      let args := functions.unpack args in
      sargs ← solver_args strict self args;
      let cvc4fun :=
        match cvc4fun with
        | kind k => PyNative k []
        | indexer c => PyNative "mkConst" [PyNative c (operator_args op)]
        end in
      CVC4Term self op (PyNative "mkExpr" [cvc4fun; PyTuple sargs]) args
  end.

End Terms.

(** [getattr(constraint, 'sort', type(constraint))] *)
Definition sort_or_type (constraint : pyval) : pyval :=
  default (type_ constraint) (attr_sort constraint).

(** [sort != bool and sort != sorts.Bool()] *)
Definition not_bool (srt : pyval) : bool :=
  match srt with
  | PyType name => if decide (name = "bool") then false else true
  | PySort Bool => false
  | _ => true
  end.

(** The body of both branches of [Assert], for one constraint; the default
    of the second [getattr] is built whether or not it is used. *)
Definition assert_one (constraint : pyval) : M t unit :=
  if not_bool (sort_or_type constraint) then
    raise (ValueError "Can only assert formulas of sort Bool.")
  else
    let fallback := PyNative "mkBoolConst" [constraint] in
    let h := default fallback (attr_solver_term constraint) in
    modify (fun s =>
      {| _smt_assertions := _smt_assertions s ++ [h]; _smt_logic := _smt_logic s;
         _smt_options := _smt_options s; sat := sat s |}).

(** [Assert] *)
Definition Assert (constraints : pyval) : M t unit :=
  match constraints with
  | PyList l => for_each assert_one l
  | _ => assert_one constraints
  end.

(** [assertions]: the engine's list, each entry printed. *)
Definition assertions (s : t) : list pyval :=
  map (fun e => PyNative "toString" [e]) (_smt_assertions s).

(** [get_value] *)
Definition get_value (var : pyval) (s : t) : result pyval :=
  match sat s with
  | Some true =>
      srt ← getattr "sort" (attr_sort var);
      wrapper ← match srt with
                | PySort (BitVec _) => Return "CVC4BitVecResult"
                | PySort Int => Return "CVC4IntResult"
                | PySort Real => Return "CVC4RealResult"
                | PySort Bool => Return "CVC4BoolResult"
                | _ => Raise (KeyError "sort")
                end;
      h ← getattr "solver_term" (attr_solver_term var);
      Return (PyResult wrapper (PyNative "getValue" [h]))
  | Some false => Raise (RuntimeError "Problem is unsat")
  | None => Raise (RuntimeError "Solver has not been run")
  end.

(** One call of a session, and a whole session from a new instance. *)
Definition step (s : t) (c : call) : t :=
  match c with
  | call_Assert x => snd (Assert x s)
  | call_check_sat native => snd (check_sat native s)
  | call_set_logic l => snd (set_logic l s)
  | call_set_option o v => snd (set_option o v s)
  | call_reset => reset s
  end.

Definition run (calls : list call) : t := foldl step init calls.

End CVC4Solver.

(** ** Z3Solver *)

Module Z3Solver.

(** Modelled from the spec: [solvers/Z3Solver.py] is not under [src/];
    section 3 has each engine instance hold "the running list of asserted
    constraints", and section 4.4 the solve state that [getValue] reads. *)
Record t := {
  _assertions : list pyval;
  sat : option bool;
}.

(** Modelled from the spec: a fresh instance of the missing adapter has
    asserted nothing and has run no check. *)
Definition init : t := {| _assertions := []; sat := None |}.

(** The methods of the missing adapter that the facade calls; section 4.5
    gives them the signatures [setLogic(name)], [checkSat()], [reset()] and
    [assertions()]. *)
Record methods := {
  set_logic : pyval -> M t unit;
  check_sat : sat_result -> t -> bool * t;
  reset : t -> t;
  assertions : t -> list pyval;
}.

(** Modelled from the spec: one adapter that meets the contract of section
    4.5, to run the facade on: [setLogic] accepts every name, [checkSat]
    stores whether the verdict is sat, [reset] starts over. *)
Definition simple : methods :=
  {| set_logic := fun _ => ret ();
     check_sat := fun native s =>
       let r := if decide (native = SAT) then true else false in
       (r, {| _assertions := _assertions s; sat := Some r |});
     reset := fun s => {| _assertions := []; sat := sat s |};
     assertions := _assertions |}.

End Z3Solver.

(** ** smt ([src/smt_switch/src/smt.py]) *)

Module smt.

(** [functions.fdata(num_indices, min_arity, max_arity)] *)
Record fdata := {
  num_indices : Z;
  min_arity : Z;
  max_arity : Z;
}.

(** [sys.maxsize] *)
Definition maxsize : Z := 2 ^ 63 - 1.

(** [fun.__class__ == operator] *)
Definition is_operator (v : pyval) : bool :=
  match v with PyOperator _ _ => true | _ => false end.

(** [__gen_operator(fun, fdata, *args)].  No caller passes keyword
    arguments, so the operator objects carry positional arguments only. *)
Definition __gen_operator (strict : bool) (fn : pyval) (fd : fdata) (args : list pyval) : outcome :=
  let args := functions.unpack args in
  match fn with
  | PyOperator func fargs =>
      if negb (len fargs =? num_indices fd) then Exception AssertionError
      else if min_arity fd <? len args then
        if strict && (max_arity fd <? len args) then
          Exception (ValueError "In strict mode and received {} args when max arity = ")
        else Call_apply_fun fn args
      else Value (PyOperator func args)
  | _ =>
      if (len args =? num_indices fd) || (len args =? 0) then
        Value (PyOperator fn args)
      else if num_indices fd + min_arity fd <=? len args then
        if strict && (max_arity fd <? len args) then
          Exception (ValueError "In strict mode and received {} args when max arity = ")
        else
          Call_apply_fun (PyOperator fn (slice_to (num_indices fd) args))
                         (slice_from (num_indices fd) args)
      else if num_indices fd =? 0 then
        Exception (ValueError "Expected {} inputs to operator but received {}")
      else
        Exception (ValueError "Expected {} or {} inputs to operator but received {}")
  end.

(** [__gen_function(name, fdata)]: the closure [func] calls
    [__gen_operator] on itself; the value bound to [name] is [func()]. *)
Definition func (strict : bool) (name : string) (fd : fdata) (args : list pyval) : outcome :=
  __gen_operator strict (PyFunction name) fd args.

Definition __gen_function (strict : bool) (name : string) (fd : fdata) : outcome :=
  if num_indices fd <? 0 then
    Exception (ValueError "Invalid expected num_indices in operator")
  else func strict name fd [].

(** The common body of [_And] and [_Or]; [unit] is [True] for [_And] and
    [False] for [_Or]. *)
Definition nary (name : string) (unit : bool) (strict : bool) (args : list pyval) : outcome :=
  if strict then
    __gen_operator strict (PyFunction name) {| num_indices := 0; min_arity := 2; max_arity := maxsize |} args
  else
    match args with
    | PyList [] :: _ => Value (PyBool unit)
    | _ =>
        match functions.unpack args with
        | [x] => Value x
        | args =>
            __gen_operator strict (PyFunction name)
              {| num_indices := 0; min_arity := 1; max_arity := maxsize |} args
        end
    end.

Definition _And := nary "_And" true.
Definition _Or := nary "_Or" false.

(** The values the module binds to [And] and [Or]. *)
Definition And_operator (strict : bool) : outcome :=
  __gen_operator strict (PyFunction "_And") {| num_indices := 0; min_arity := 1; max_arity := maxsize |} [].
Definition Or_operator (strict : bool) : outcome :=
  __gen_operator strict (PyFunction "_Or") {| num_indices := 0; min_arity := 1; max_arity := maxsize |} [].

(** An integer operand; [bool] is a subclass of [int]. *)
Definition as_int (v : pyval) : result Z :=
  match v with
  | PyInt z => Return z
  | PyBool b => Return (if b then 1 else 0)
  | _ => Raise (TypeError "unsupported operand type(s)")
  end.

(** [x.sort.width] *)
Definition sort_width (v : pyval) : result Z :=
  s ← getattr "sort" (attr_sort v);
  match s with
  | PySort (BitVec w) => Return w
  | _ => Raise (AttributeError "width")
  end.

Section Fun2sort.

(** [sorts.get_sort] is not under [src/]; the table is read for any such
    function. *)
Variable get_sort : list pyval -> result pyval.

(** The table [fun2sort], applied to the arguments of an entry. *)
Definition fun2sort (name : string) (args : list pyval) : result pyval :=
  if decide (name ∈ ["And"; "Or"; "Equals"; "Not"; "LT"; "GT"; "LEQ"; "GEQ";
                     "BVUlt"; "BVUle"; "BVUgt"; "BVUge";
                     "BVSlt"; "BVSle"; "BVSgt"; "BVSge"]) then
    Return (PySort Bool)
  else if decide (name ∈ ["No_op"; "BVNot"; "BVNeg"; "Sub"; "Add"; "BVAnd";
                          "BVOr"; "BVXor"; "BVAdd"; "BVSub"; "BVMul"; "BVUdiv";
                          "BVUrem"; "BVShl"; "BVAshr"; "BVLshr"]) then
    get_sort args
  else if decide (name = "Ite") then get_sort (drop 1 args)
  else if decide (name = "Extract") then
    match args with
    | [ub; lb; arg] =>
        u ← as_int ub; l ← as_int lb;
        PySort <$> sorts.BitVec_init (u - l + 1)
    | _ => Raise (TypeError "<lambda>() takes 3 positional arguments")
    end
  else if decide (name = "Concat") then
    match args with
    | [b1; b2] =>
        w1 ← sort_width b1; w2 ← sort_width b2;
        PySort <$> sorts.BitVec_init (w1 + w2)
    | _ => Raise (TypeError "<lambda>() takes 2 positional arguments")
    end
  else if decide (name = "Zero_extend") then
    match args with
    | [bv; pad_width] =>
        w ← sort_width bv; p ← as_int pad_width;
        PySort <$> sorts.BitVec_init (w + p)
    | _ => Raise (TypeError "<lambda>() takes 2 positional arguments")
    end
  else Raise (KeyError name).

End Fun2sort.

(** *** The process-wide state *)

(** An adapter instance of one of the three classes. *)
Inductive instance :=
| CVC4 (s : CVC4Solver.t)
| Z3 (s : Z3Solver.t)
| Boolector (s : BoolectorSolver.t).

(** The module globals [_solver], [__solver_cache] and [sat].  Instances are
    objects: [heap] holds them, a reference is an index into it, and
    [constructions] logs every call of an adapter class, by cache key. *)
Record globals := {
  _solver : option nat;
  __solver_cache : gmap string (option nat);
  sat : option bool;
  heap : list instance;
  constructions : list string;
}.

Definition initial : globals :=
  {| _solver := None;
     __solver_cache := {[ "CVC4" := None; "Z3" := None; "Boolector" := None ]};
     sat := None;
     heap := [];
     constructions := [] |}.

(** [__solver_map[solver_name]()] *)
Definition __solver_map (solver_name : string) : option instance :=
  if decide (solver_name = "CVC4") then Some (CVC4 CVC4Solver.init)
  else if decide (solver_name = "Z3") then Some (Z3 Z3Solver.init)
  else if decide (solver_name = "Boolector") then Some (Boolector BoolectorSolver.init)
  else None.

(** [set_solver(solver_name)] *)
Definition set_solver (solver_name : string) : M globals unit := fun g =>
  match __solver_cache g !! solver_name with
  | None => (Raise (KeyError solver_name), g)
  | Some (Some r) =>
      (Return (), {| _solver := Some r; __solver_cache := __solver_cache g;
                     sat := sat g; heap := heap g;
                     constructions := constructions g |})
  | Some None =>
      match __solver_map solver_name with
      | None => (Raise (KeyError solver_name), g)
      | Some i =>
          let r := length (heap g) in
          (Return (), {| _solver := Some r;
                         __solver_cache := <[solver_name := Some r]> (__solver_cache g);
                         sat := sat g; heap := heap g ++ [i];
                         constructions := constructions g ++ [solver_name] |})
      end
  end.

(** [_solver.m(...)]: the method runs on the active instance, in place. *)
Definition on_solver {A} (name : string) (m : M instance A) : M globals A := fun g =>
  match _solver g with
  | None => (Raise (AttributeError name), g)
  | Some r =>
      match heap g !! r with
      | None => (Raise (AttributeError name), g)
      | Some i =>
          let '(res, i') := m i in
          (res, {| _solver := _solver g; __solver_cache := __solver_cache g;
                   sat := sat g; heap := <[r := i']> (heap g);
                   constructions := constructions g |})
      end
  end.

(** Binding the positional arguments of a call to a method of one
    parameter besides [self]. *)
Definition call1 {S A} (name : string) (m : pyval -> M S A) (args : list pyval) : M S A :=
  match args with
  | [a] => m a
  | _ => raise (TypeError (name +:+ "() takes 2 positional arguments"))
  end.

(** The same for a method of two parameters besides [self]. *)
Definition call2 {S A} (name : string) (m : pyval -> pyval -> M S A) (args : list pyval) : M S A :=
  match args with
  | [a; b] => m a b
  | _ => raise (TypeError (name +:+ "() takes 3 positional arguments"))
  end.

Definition in_CVC4 {A} (m : M CVC4Solver.t A) (s : CVC4Solver.t) : result A * instance :=
  let '(r, s') := m s in (r, CVC4 s').
Definition in_Z3 {A} (m : M Z3Solver.t A) (s : Z3Solver.t) : result A * instance :=
  let '(r, s') := m s in (r, Z3 s').
Definition in_Boolector {A} (m : M BoolectorSolver.t A) (s : BoolectorSolver.t) : result A * instance :=
  let '(r, s') := m s in (r, Boolector s').

Section Facade.

Variable Z3methods : Z3Solver.methods.

(** The method [set_logic] of the instance's class, called with [args]. *)
Definition solver_set_logic (args : list pyval) : M instance unit := fun i =>
  match i with
  | CVC4 s => in_CVC4 (call1 "set_logic" CVC4Solver.set_logic args) s
  | Z3 s => in_Z3 (call1 "set_logic" (Z3Solver.set_logic Z3methods) args) s
  | Boolector s => in_Boolector (call1 "set_logic" BoolectorSolver.set_logic args) s
  end.

(** The method [check_sat] of the instance's class. *)
Definition solver_check_sat (native : sat_result) : M instance bool := fun i =>
  match i with
  | CVC4 s => let '(b, s') := CVC4Solver.check_sat native s in (Return b, CVC4 s')
  | Z3 s => let '(b, s') := Z3Solver.check_sat Z3methods native s in (Return b, Z3 s')
  | Boolector s => let '(b, s') := BoolectorSolver.check_sat native s in (Return b, Boolector s')
  end.

(** The method [reset] of the instance's class. *)
Definition solver_reset : M instance unit := fun i =>
  match i with
  | CVC4 s => (Return (), CVC4 (CVC4Solver.reset s))
  | Z3 s => (Return (), Z3 (Z3Solver.reset Z3methods s))
  | Boolector s => (Return (), Boolector (BoolectorSolver.reset s))
  end.

(** The method [assertions] of the instance's class. *)
Definition solver_assertions : M instance (list pyval) := fun i =>
  match i with
  | CVC4 s => (Return (CVC4Solver.assertions s), i)
  | Z3 s => (Return (Z3Solver.assertions Z3methods s), i)
  | Boolector s => (Return (BoolectorSolver.assertions s), i)
  end.

(** [reset(self)] *)
Definition reset (self : pyval) : M globals unit := on_solver "reset" solver_reset.

(** [check_sat()], for the verdict [native] of the engine. *)
Definition check_sat (native : sat_result) : M globals bool := fun g =>
  match on_solver "check_sat" (solver_check_sat native) g with
  | (Return b, g') =>
      (Return b, {| _solver := _solver g'; __solver_cache := __solver_cache g';
                    sat := Some b; heap := heap g';
                    constructions := constructions g' |})
  | (Raise e, g') => (Raise e, g')
  end.

(** [set_logic(logicstr)] *)
Definition set_logic (logicstr : pyval) : M globals unit :=
  on_solver "set_logic" (solver_set_logic [logicstr]).

(** [set_option(optionstr, value)]: the body calls [_solver.set_logic]
    with both arguments. *)
Definition set_option (optionstr value : pyval) : M globals unit :=
  on_solver "set_logic" (solver_set_logic [optionstr; value]).

(** [assertions()] *)
Definition assertions : M globals (list pyval) :=
  on_solver "assertions" solver_assertions.

(** [get_value(self, var)] *)
Definition get_value (self var : pyval) : M globals pyval :=
  raise (NotImplementedError "Deprecating results so waiting to just do get value correctly with terms").

(** [get_model(self)] *)
Definition get_model (self : pyval) : M globals pyval :=
  raise (NotImplementedError EmptyString).

(** What the client does with the facade between two observations: it
    selects a backend, calls one of the functions above, or calls a method
    of the active adapter object directly (any in-place change [m] of that
    one instance, such as [Assert]). *)
Inductive command :=
| do_set_solver (solver_name : string)
| do_set_logic (logicstr : pyval)
| do_set_option (optionstr value : pyval)
| do_check_sat (native : sat_result)
| do_reset
| do_method (m : instance -> instance).

Definition exec (g : globals) (c : command) : globals :=
  match c with
  | do_set_solver n => snd (set_solver n g)
  | do_set_logic l => snd (set_logic l g)
  | do_set_option o v => snd (set_option o v g)
  | do_check_sat native => snd (check_sat native g)
  | do_reset => snd (reset PyNone g)
  | do_method m => snd (on_solver "method" (fun i => (Return (), m i)) g)
  end.

Definition run (commands : list command) : globals := foldl exec initial commands.

End Facade.

(** How often the adapter class for [name] has been called. *)
Definition times (name : string) (log : list string) : nat :=
  length (filter (fun n => n = name) log).

(** The instance [_solver] refers to. *)
Definition active (g : globals) : option instance :=
  r ← _solver g; heap g !! r.

Section Assert.

(** [Assert] is written against an adapter whose [theory_const] and
    [Assert] take and return raw handles; the adapter methods, and what
    indexing and iterating a term do ([terms.py] is not under [src/]), are
    read for any such functions, over any adapter state. *)
Context {S : Type}.
Variable solver_theory_const : sort -> pyval -> M S pyval.
Variable solver_Assert : pyval -> M S unit.
Variable Term_getitem0 : pyval -> result pyval.
Variable Term_iterate : pyval -> result (list pyval).

(** [isinstance(v, Sequence)] *)
Definition is_Sequence (v : pyval) : bool :=
  match v with PyList _ | PyTuple _ | PyStr _ => true | _ => false end.

(** The characters of a string, each a string of length one. *)
Fixpoint chars (s : string) : list pyval :=
  match s with
  | EmptyString => []
  | String c rest => PyStr (String c EmptyString) :: chars rest
  end.

(** [v[0]] *)
Definition getitem0 (v : pyval) : result pyval :=
  match v with
  | PyList l | PyTuple l =>
      match l with
      | x :: _ => Return x
      | [] => Raise (IndexError "index out of range")
      end
  | PyStr s =>
      match chars s with
      | x :: _ => Return x
      | [] => Raise (IndexError "string index out of range")
      end
  | PyTerm _ _ _ _ _ => Term_getitem0 v
  | _ => Raise (TypeError "object is not subscriptable")
  end.

(** The elements a [for] loop or [tuple(...)] draws from a value. *)
Definition iterate (v : pyval) : result (list pyval) :=
  match v with
  | PyList l | PyTuple l => Return l
  | PyStr s => Return (chars s)
  | PyTerm _ _ _ _ _ => Term_iterate v
  | _ => Raise (TypeError "object is not iterable")
  end.

(** The body of the loop of [Assert]; the default of the second [getattr],
    a theory constant, is built whether or not it is used. *)
Definition assert_one (constraint : pyval) : M S unit :=
  if CVC4Solver.not_bool (CVC4Solver.sort_or_type constraint) then
    raise (ValueError "Can only assert formulas of sort Bool. ")
  else
    bind (solver_theory_const Bool constraint) (fun d =>
    solver_Assert (default d (attr_solver_term constraint))).

(** [Assert(constraints)] *)
Definition Assert (constraints : pyval) : M S unit :=
  bind (lift (getitem0 constraints)) (fun first =>
  bind (lift (if is_Sequence first then iterate first else iterate constraints))
       (for_each assert_one)).

End Assert.

Section Apply.

(** [apply_fun] is written against an adapter whose [theory_const] and
    [apply_fun] take and return raw handles.  Those two methods, the
    attribute [sort] of a raw handle, the attribute [fname] of an operator
    ([smtutils.operator] is not under [src/]) and the term constructor
    [__term_map[_solver.__class__]] are read for any such functions, over any
    adapter state. *)
Context {S : Type}.
Variable solver_theory_const : pyval -> pyval -> M S pyval.
Variable solver_apply_fun : pyval -> list pyval -> list pyval -> M S pyval.
Variable handle_sort : pyval -> result pyval.
Variable operator_fname : pyval -> result pyval.
Variable Term : pyval -> pyval -> list pyval -> result pyval.

(** [tuple(v)] for a value that is a [Sequence]. *)
Definition sequence_items (v : pyval) : list pyval :=
  match v with
  | PyList l | PyTuple l => l
  | PyStr s => chars s
  | _ => []
  end.

(** [v.sort], for a term, a raw handle or a host value. *)
Definition value_sort (v : pyval) : result pyval :=
  match v with
  | PyNative _ _ => handle_sort v
  | _ => getattr "sort" (attr_sort v)
  end.

(** [fun.args] *)
Definition fun_args (fn : pyval) : result (list pyval) :=
  match fn with
  | PyOperator _ a => Return a
  | _ => Raise (AttributeError "args")
  end.

(** A list comprehension whose element expression may call the adapter. *)
Fixpoint comprehension {A B} (f : A -> M S B) (l : list A) : M S (list B) :=
  match l with
  | [] => ret []
  | x :: xs => bind (f x) (fun y => bind (comprehension f xs) (fun ys => ret (y :: ys)))
  end.

(** The handles passed to the adapter: in strict mode every argument must
    have one; otherwise a value without one becomes a theory constant of
    the sort read off [ls_term]. *)
Definition facade_solver_args (strict : bool) (ls_term : pyval) (args : list pyval) : M S (list pyval) :=
  if strict then
    lift (mapM (fun arg => getattr "solver_term" (attr_solver_term arg)) args)
  else
    comprehension
      (fun arg =>
         match attr_solver_term arg with
         | Some h => ret h
         | None => bind (lift (value_sort ls_term)) (fun srt => solver_theory_const srt arg)
         end)
      args.

(** [apply_fun(fun, *args)] *)
Definition apply_fun (strict : bool) (fn : pyval) (args : list pyval) : M S pyval :=
  match args with
  | [] => raise (IndexError "tuple index out of range")
  | first :: _ =>
      let args := if is_Sequence first then sequence_items first else args in
      match last args with
      | None => raise (IndexError "list index out of range")
      | Some final =>
          let ls_term := default final (attr_solver_term final) in
          bind (facade_solver_args strict ls_term args) (fun solver_args =>
          bind (lift (operator_fname fn)) (fun fname =>
          bind (lift (fun_args fn)) (fun fargs =>
          bind (solver_apply_fun fname fargs solver_args) (fun s_term =>
          lift (Term fn s_term args)))))
      end
  end.

End Apply.

End smt.

(** * Vocabulary of the statements *)

(** Modelled from the spec: the table [functions.func_symbols] is not under
    [src/]; section 4.2 has the indexed [Extract(upper, lower)] applied to
    one bit-vector term, and the entry of [fun2sort] takes [ub, lb, arg]:
    two indices, one operand. *)
Definition Extract_fdata : smt.fdata :=
  {| smt.num_indices := 2; smt.min_arity := 1; smt.max_arity := 1 |}.

(** An 8-bit term, for the examples. *)
Definition bv8 : pyval :=
  PyTerm (PySolver BoolectorSolver_cls 0) (PyFun No_op)
         (PyNative "Var" [PyNative "BitVecSort" [PyInt 8]; PyStr "x"]) (BitVec 8) [].

(** A term of sort [Bool]. *)
Definition is_Bool_term (v : pyval) : bool :=
  match v with PyTerm _ _ _ Bool _ => true | _ => false end.

(** The handles of a list of terms. *)
Definition handles (l : list pyval) : list pyval :=
  omap attr_solver_term l.

(** What one call does to the attribute [sat]: only a check writes it. *)
Definition sat_after (c : call) (before : option bool) : option bool :=
  match c with
  | call_check_sat native => Some (if decide (native = SAT) then true else false)
  | _ => before
  end.

(** The attribute [sat] after a session is the verdict of its last check. *)
Definition sat_of (calls : list call) (before : option bool) : option bool :=
  match last_check calls with
  | Some native => Some (if decide (native = SAT) then true else false)
  | None => before
  end.

(** A [Bool] term, for the examples. *)
Definition bool_p : pyval :=
  PyTerm (PySolver BoolectorSolver_cls 0) (PyFun No_op)
         (PyNative "Var" [PyNative "BitVecSort" [PyInt 1]; PyStr "p"]) Bool [].

(** The wrapper class the CVC4 adapter picks for a sort. *)
Definition CVC4_wrapper (t : sort) : string :=
  match t with
  | BitVec _ => "CVC4BitVecResult"
  | Int => "CVC4IntResult"
  | Real => "CVC4RealResult"
  | Bool => "CVC4BoolResult"
  end.

(** A method of the Boolector adapter, as a change of an instance. *)
Definition Boolector_method (m : M BoolectorSolver.t unit) (i : smt.instance) : smt.instance :=
  match i with
  | smt.Boolector s => smt.Boolector (snd (m s))
  | _ => i
  end.

(** The invariant of the cache: a filled slot refers to an instance on the
    heap whose class was called exactly once; the class of an empty slot was
    never called; every key names a class. *)
Definition cache_ok (g : smt.globals) : Prop :=
  forall name,
    match smt.__solver_cache g !! name with
    | Some (Some r) =>
        (r < length (smt.heap g))%nat /\ smt.times name (smt.constructions g) = 1%nat
    | Some None =>
        smt.times name (smt.constructions g) = 0%nat /\ is_Some (smt.__solver_map name)
    | None => smt.times name (smt.constructions g) = 0%nat
    end.

(** The classes derived from [_bvbinops]. *)
Definition is_bvbinop (f : FunctionBase) : bool :=
  match f with
  | bvand | bvor | bvadd | bvmul | bvudiv | bvurem | bvshl | bvlshr => true
  | _ => false
  end.

(** Equality of two tuples of integers, which is all that [params] holds. *)
Fixpoint tuple_eq (a b : list pyval) : bool :=
  match a, b with
  | [], [] => true
  | PyInt x :: a', PyInt y :: b' => (x =? y) && tuple_eq a' b'
  | _, _ => false
  end.

(** [FunctionBase.__eq__], between two operator instances:
    [self.__class__ == other.__class__ and self.params == other.params]. *)
Definition FunctionBase_eq (self other : FunctionBase) : bool :=
  bool_decide (functions.class_name self = functions.class_name other)
  && tuple_eq (functions.params self) (functions.params other).

(** The Boolector instance after the engine was given the handles [hs]. *)
Definition Boolector_asserted (hs : list pyval) (s : BoolectorSolver.t) : BoolectorSolver.t :=
  {| BoolectorSolver._assertions := BoolectorSolver._assertions s ++ hs;
     BoolectorSolver._btor_asserted := BoolectorSolver._btor_asserted s ++ hs;
     BoolectorSolver._btor_opts := BoolectorSolver._btor_opts s;
     BoolectorSolver.sat := BoolectorSolver.sat s |}.

(** The CVC4 instance after the engine was given the formulas [hs]. *)
Definition CVC4_asserted (hs : list pyval) (s : CVC4Solver.t) : CVC4Solver.t :=
  {| CVC4Solver._smt_assertions := CVC4Solver._smt_assertions s ++ hs;
     CVC4Solver._smt_logic := CVC4Solver._smt_logic s;
     CVC4Solver._smt_options := CVC4Solver._smt_options s;
     CVC4Solver.sat := CVC4Solver.sat s |}.

(** What the CVC4 adapter lets through: a term of sort [Bool] or a bare
    boolean. *)
Definition CVC4_accepts (x : pyval) : bool :=
  negb (CVC4Solver.not_bool (CVC4Solver.sort_or_type x)).

(** What the CVC4 adapter gives the engine for an accepted constraint. *)
Definition CVC4_formula (x : pyval) : pyval :=
  default (PyNative "mkBoolConst" [x]) (attr_solver_term x).

(** A session without [reset]. *)
Definition no_reset (calls : list call) : bool :=
  forallb (fun c => match c with call_reset => false | _ => true end) calls.

(** The native function the CVC4 adapter applies for a table entry: the
    kind itself, or the indexer built from the operator's indices. *)
Definition CVC4_native_fun (f : CVC4Solver.cvc4fun) (op : pyval) : pyval :=
  match f with
  | CVC4Solver.kind k => PyNative k []
  | CVC4Solver.indexer c => PyNative "mkConst" [PyNative c (CVC4Solver.operator_args op)]
  end.

(** The keys of [__solver_cache]. *)
Definition backend_names : list string := ["CVC4"; "Z3"; "Boolector"].

(** The invariant of the references: the cache has exactly the three keys,
    the active reference is a cached one, and no two names share one. *)
Definition refs_ok (g : smt.globals) : Prop :=
  (forall name, is_Some (smt.__solver_cache g !! name) <-> name ∈ backend_names)
  /\ (forall r, smt._solver g = Some r ->
        exists name, smt.__solver_cache g !! name = Some (Some r))
  /\ (forall n1 n2 r,
        smt.__solver_cache g !! n1 = Some (Some r) ->
        smt.__solver_cache g !! n2 = Some (Some r) -> n1 = n2).

(** The number of lists nested in a value: a list is larger than each of
    its elements. *)
Fixpoint nesting (v : pyval) : nat :=
  match v with
  | PyList l =>
      S ((fix sum (l : list pyval) : nat :=
            match l with
            | [] => O
            | x :: xs => (nesting x + sum xs)%nat
            end) l)
  | _ => O
  end.

(** * Properties *)

(** ** Operators: binding indices and applying *)

(** A first argument that is not a list is left alone by the unpacking. *)
Lemma unpack_not_list x rest :
  is_list x = false -> functions.unpack (x :: rest) = x :: rest.
Proof. by destruct x. Qed.

(** Conversely, no list is its own first element. *)
Lemma unpack_fixed_head x rest :
  functions.unpack (x :: rest) = x :: rest -> is_list x = false.
Proof.
  destruct x; try done. simpl. intros H.
  apply (f_equal (fun l => nesting (PyList l))) in H. simpl in H. lia.
Qed.

(** The unindexed function given indices and operands together binds the
    indices and hands the operands to [apply_fun]. *)
Lemma gen_operator_indices_and_operands name fd args :
  functions.unpack args = args ->
  len args <> smt.num_indices fd ->
  len args <> 0 ->
  smt.num_indices fd + smt.min_arity fd <= len args ->
  smt.__gen_operator false (PyFunction name) fd args
  = Call_apply_fun (PyOperator (PyFunction name) (slice_to (smt.num_indices fd) args))
                   (slice_from (smt.num_indices fd) args).
Proof.
  intros Hun Hn H0 Hge. unfold smt.__gen_operator. rewrite Hun.
  assert ((len args =? smt.num_indices fd) = false) as -> by lia.
  assert ((len args =? 0) = false) as -> by lia.
  assert ((smt.num_indices fd + smt.min_arity fd <=? len args) = true) as -> by lia.
  reflexivity.
Qed.

Lemma slices_at_zero {A} (l : list A) : slice_to 0 l = [] /\ slice_from 0 l = l.
Proof. by split. Qed.

Lemma slices_at_length {A} (idx ops : list A) :
  slice_to (len idx) (idx ++ ops)%list = idx
  /\ slice_from (len idx) (idx ++ ops)%list = ops.
Proof.
  unfold slice_to, slice_from, len.
  assert ((Z.of_nat (length idx) <? 0) = false) as -> by (apply Z.ltb_ge; lia).
  rewrite Nat2Z.id. by rewrite take_app_length, drop_app_length.
Qed.



(** ** Output sorts *)

(** [Ite.osort] on three terms: the test meant to compare the sorts chains
    them with [and], and a sort is never false. *)
Lemma Ite_osort_terms s1 o1 h1 t1 c1 s2 o2 h2 t2 c2 s3 o3 h3 t3 c3 :
  functions.Ite_osort
    [PyTerm s1 o1 h1 t1 c1; PyTerm s2 o2 h2 t2 c2; PyTerm s3 o3 h3 t3 c3]
  = Return (PySort t2).
Proof. reflexivity. Qed.

(** Any other number of arguments ends in an error. *)
Lemma Ite_osort_arity args :
  length args <> 3%nat ->
  functions.Ite_osort args = Raise (AttributeError "_Ite__class__name").
Proof.
  intros H. unfold functions.Ite_osort.
  destruct (Nat.eqb_spec (length args) 3) as [E|_]; [done|reflexivity].
Qed.

(** C2.  For three terms [cond], [a], [b], [Ite.osort] returns the sort of
    [a] whatever the sort of [b] is; with a 4-bit [a] and an 8-bit [b] it
    returns [BitVec 4] and raises nothing. *)
Theorem Ite_osort_ignores_third_sort :
  forall s1 o1 h1 t1 c1 s2 o2 h2 t2 c2 s3 o3 h3 t3 c3,
    functions.osort Ite
      [PyTerm s1 o1 h1 t1 c1; PyTerm s2 o2 h2 t2 c2; PyTerm s3 o3 h3 t3 c3]
    = Return (PySort t2)
    /\ functions.osort Ite
         [PyTerm s1 o1 h1 Bool c1; PyTerm s2 o2 h2 (BitVec 4) c2;
          PyTerm s3 o3 h3 (BitVec 8) c3]
       = Return (PySort (BitVec 4)).
Proof. intros. split; apply Ite_osort_terms. Qed.

(** The output sort of [extract] is decided by the width alone. *)
Lemma extract_osort ub lb args :
  functions.osort (extract ub lb) args
  = PySort <$> sorts.BitVec_init (ub - lb + 1).
Proof. reflexivity. Qed.

(** So is the entry of [fun2sort]. *)
Lemma fun2sort_Extract get_sort ub lb arg :
  smt.fun2sort get_sort "Extract" [PyInt ub; PyInt lb; arg]
  = PySort <$> sorts.BitVec_init (ub - lb + 1).
Proof. reflexivity. Qed.

Lemma BitVec_init_ok w : 1 <= w -> sorts.BitVec_init w = Return (BitVec w).
Proof.
  intros H. unfold sorts.BitVec_init.
  destruct (Z.leb_spec 1 w); [reflexivity | lia].
Qed.

Lemma BitVec_init_invalid w :
  w < 1 -> sorts.BitVec_init w = Raise (ValueError "InvalidSort").
Proof.
  intros H. unfold sorts.BitVec_init.
  destruct (Z.leb_spec 1 w); [lia | reflexivity].
Qed.

Example Extract_7_0 : functions.osort (extract 7 0) [bv8] = Return (PySort (BitVec 8)).
Proof. reflexivity. Qed.

Example Extract_3_0 : functions.osort (extract 3 0) [bv8] = Return (PySort (BitVec 4)).
Proof. reflexivity. Qed.

(** C4, as the claim states it, fails: [Extract(3,-1)] has a negative lower
    index, yet applied to an 8-bit term its output sort is computed,
    [BitVec 5], and nothing is raised. *)
Lemma extract_negative_lower_accepted :
  functions.osort (extract 3 (-1)) [bv8] = Return (PySort (BitVec 5))
  /\ (forall get_sort,
        smt.fun2sort get_sort "Extract" [PyInt 3; PyInt (-1); bv8]
        = Return (PySort (BitVec 5))).
Proof. split; reflexivity. Qed.

(** C4, amended.  For integers [ub] and [lb] with [lb <= ub], of either
    sign, the output sort of [Extract(ub, lb)] is [BitVec (ub - lb + 1)],
    by the class in [functions.py] and by the table [fun2sort] alike; when
    [ub < lb] the width is below one and computing the output sort fails in
    the sort constructor. *)
Theorem Extract_output_sort :
  forall (ub lb : Z) (get_sort : list pyval -> result pyval) (args : list pyval) (arg : pyval),
    (lb <= ub ->
       functions.osort (extract ub lb) args = Return (PySort (BitVec (ub - lb + 1)))
       /\ smt.fun2sort get_sort "Extract" [PyInt ub; PyInt lb; arg]
          = Return (PySort (BitVec (ub - lb + 1))))
    /\ (ub < lb ->
          functions.osort (extract ub lb) args = Raise (ValueError "InvalidSort")
          /\ smt.fun2sort get_sort "Extract" [PyInt ub; PyInt lb; arg]
             = Raise (ValueError "InvalidSort")).
Proof.
  intros ub lb get_sort args arg.
  rewrite extract_osort, fun2sort_Extract. split; intros H.
  - rewrite BitVec_init_ok by lia. by split.
  - rewrite BitVec_init_invalid by lia. by split.
Qed.

Lemma Extract_output_sort_witness :
  (functions.osort (extract 7 0) [bv8] = Return (PySort (BitVec 8))
   /\ smt.fun2sort (fun _ => Return PyNone) "Extract" [PyInt 7; PyInt 0; bv8]
      = Return (PySort (BitVec (7 - 0 + 1))))
  /\ (functions.osort (extract 0 7) [bv8] = Raise (ValueError "InvalidSort")
      /\ smt.fun2sort (fun _ => Return PyNone) "Extract" [PyInt 0; PyInt 7; bv8]
         = Raise (ValueError "InvalidSort")).
Proof.
  split.
  - apply (Extract_output_sort 7 0 (fun _ => Return PyNone) [bv8] bv8). lia.
  - apply (Extract_output_sort 0 7 (fun _ => Return PyNone) [bv8] bv8). lia.
Defined.

(** ** And and Or in permissive mode *)

(** The class-based [And] and [Or]: unit, identity, dispatch, and the list
    form. *)
Lemma nary_call_cases unit self :
  functions.nary_call unit false self [] = Value (PyBool unit)
  /\ (forall x, is_list x = false -> functions.nary_call unit false self [x] = Value x)
  /\ (forall s o h t c y rest,
        functions.nary_call unit false self (PyTerm s o h t c :: y :: rest)
        = Call_solver_apply_fun s (PyFun self) (PyTerm s o h t c :: y :: rest))
  /\ (forall rest,
        functions.nary_call unit false self (PyList [] :: rest) = Value (PyBool unit))
  /\ (forall l rest, functions.unpack l = l ->
        functions.nary_call unit false self (PyList l :: rest)
        = functions.nary_call unit false self l).
Proof.
  split; [reflexivity|]. split; [|split; [reflexivity|split; [reflexivity|]]].
  - intros x Hx. unfold functions.nary_call. by rewrite unpack_not_list.
  - intros l rest Hun. unfold functions.nary_call. simpl functions.unpack at 1.
    by rewrite Hun.
Qed.

(** The facade's [_And] and [_Or]: the unit for an empty list in first
    place, the operator object for no argument at all. *)
Lemma facade_nary_cases name unit :
  (forall rest, smt.nary name unit false (PyList [] :: rest) = Value (PyBool unit))
  /\ smt.nary name unit false [] = Value (PyOperator (PyFunction name) [])
  /\ (forall x, is_list x = false -> smt.nary name unit false [x] = Value x)
  /\ (forall x y rest, is_list x = false ->
        smt.nary name unit false (x :: y :: rest)
        = Call_apply_fun (PyOperator (PyFunction name) []) (x :: y :: rest))
  /\ (forall l rest, l <> [] -> functions.unpack l = l ->
        smt.nary name unit false (PyList l :: rest) = smt.nary name unit false l).
Proof.
  split; [reflexivity|]. split; [reflexivity|]. split; [|split].
  - intros x Hx. unfold smt.nary. by destruct x.
  - intros x y rest Hx.
    transitivity (smt.__gen_operator false (PyFunction name)
                    {| smt.num_indices := 0; smt.min_arity := 1;
                       smt.max_arity := smt.maxsize |} (x :: y :: rest)).
    { by destruct x. }
    rewrite (gen_operator_indices_and_operands name _ (x :: y :: rest)).
    + reflexivity.
    + by apply unpack_not_list.
    + unfold len; simpl; lia.
    + unfold len; simpl; lia.
    + unfold len; simpl; lia.
  - intros l rest Hne Hun. unfold smt.nary.
    destruct l as [|h t]; [done|]. simpl functions.unpack at 1.
    apply unpack_fixed_head in Hun as Hh. rewrite Hun. by destruct h.
Qed.

(** C3, as the claim states it, fails in the facade: in permissive mode
    [_And] and [_Or] called with no argument at all return the operator
    object, not a boolean. *)
Lemma facade_And_without_arguments :
  smt._And false [] = Value (PyOperator (PyFunction "_And") [])
  /\ smt._Or false [] = Value (PyOperator (PyFunction "_Or") [])
  /\ smt._And false [] <> Value (PyBool true)
  /\ smt._Or false [] <> Value (PyBool false).
Proof. repeat split; try reflexivity; discriminate. Qed.

(** C3, amended.  In permissive mode the classes [And] and [Or] of
    [functions.py] return [True] and [False] for no argument and whenever the
    first argument is an empty list, return a single argument that is not a
    list unchanged, and for two or more arguments headed by a term end in a
    call of that term's adapter with the operator and all the arguments; a
    list in first place whose first element is not itself a list stands for
    its elements, whatever follows it being dropped.  The facade's [_And] and
    [_Or] return the operator object when called with no argument at all,
    return [True] and [False] whenever the first argument is an empty list,
    return a single argument that is not a list unchanged, pass two or more
    arguments whose first is not a list on to [apply_fun] with the operator,
    and take a non-empty list in first place, whose first element is not
    itself a list, for its elements, dropping whatever follows it.  The cases
    that return a boolean, the argument or the operator build no term and
    call no adapter: the outcome is that value. *)
Theorem And_Or_permissive :
  forall (x y : pyval) (rest l : list pyval),
    is_list x = false ->
    functions.unpack l = l ->
    (functions.call false And [] = Value (PyBool true)
     /\ functions.call false Or [] = Value (PyBool false)
     /\ functions.call false And (PyList [] :: rest) = Value (PyBool true)
     /\ functions.call false Or (PyList [] :: rest) = Value (PyBool false)
     /\ functions.call false And [x] = Value x
     /\ functions.call false Or [x] = Value x
     /\ (forall s o h t c,
           functions.call false And (PyTerm s o h t c :: y :: rest)
           = Call_solver_apply_fun s (PyFun And) (PyTerm s o h t c :: y :: rest)
           /\ functions.call false Or (PyTerm s o h t c :: y :: rest)
              = Call_solver_apply_fun s (PyFun Or) (PyTerm s o h t c :: y :: rest))
     /\ functions.call false And (PyList l :: rest) = functions.call false And l
     /\ functions.call false Or (PyList l :: rest) = functions.call false Or l)
    /\ (smt._And false [] = Value (PyOperator (PyFunction "_And") [])
        /\ smt._Or false [] = Value (PyOperator (PyFunction "_Or") [])
        /\ smt._And false (PyList [] :: rest) = Value (PyBool true)
        /\ smt._Or false (PyList [] :: rest) = Value (PyBool false)
        /\ smt._And false [x] = Value x
        /\ smt._Or false [x] = Value x
        /\ smt._And false (x :: y :: rest)
           = Call_apply_fun (PyOperator (PyFunction "_And") []) (x :: y :: rest)
        /\ smt._Or false (x :: y :: rest)
           = Call_apply_fun (PyOperator (PyFunction "_Or") []) (x :: y :: rest)
        /\ (l <> [] ->
            smt._And false (PyList l :: rest) = smt._And false l
            /\ smt._Or false (PyList l :: rest) = smt._Or false l)).
Proof.
  intros x y rest l Hx Hl.
  destruct (nary_call_cases true And) as (Ha0 & Ha1 & Ha2 & Ha3 & Ha4).
  destruct (nary_call_cases false Or) as (Ho0 & Ho1 & Ho2 & Ho3 & Ho4).
  destruct (facade_nary_cases "_And" true) as (Fa0 & Fa & Fa1 & Fa2 & Fa3).
  destruct (facade_nary_cases "_Or" false) as (Fo0 & Fo & Fo1 & Fo2 & Fo3).
  split.
  - split; [exact Ha0|]. split; [exact Ho0|].
    split; [exact (Ha3 rest)|]. split; [exact (Ho3 rest)|].
    split; [exact (Ha1 x Hx)|]. split; [exact (Ho1 x Hx)|].
    split; [intros s o h t c; split; [apply Ha2 | apply Ho2]|].
    split; [exact (Ha4 l rest Hl) | exact (Ho4 l rest Hl)].
  - split; [exact Fa|]. split; [exact Fo|].
    split; [exact (Fa0 rest)|]. split; [exact (Fo0 rest)|].
    split; [exact (Fa1 x Hx)|]. split; [exact (Fo1 x Hx)|].
    split; [exact (Fa2 x y rest Hx)|]. split; [exact (Fo2 x y rest Hx)|].
    intros Hne. split; [exact (Fa3 l rest Hne Hl) | exact (Fo3 l rest Hne Hl)].
Qed.

Lemma And_Or_permissive_witness :
  functions.call false And [bv8] = Value bv8
  /\ smt._And false [bv8] = Value bv8
  /\ smt._Or false [bv8; PyBool true; bool_p]
     = Call_apply_fun (PyOperator (PyFunction "_Or") []) [bv8; PyBool true; bool_p]
  /\ smt._And false [PyList []; bool_p] = Value (PyBool true)
  /\ smt._And false [PyList [bv8]; bool_p] = smt._And false [bv8].
Proof.
  destruct (And_Or_permissive bv8 (PyBool true) [bool_p] [bv8] eq_refl eq_refl)
    as ((_ & _ & _ & _ & H1 & _) & (_ & _ & H4 & _ & H2 & _ & _ & H3 & H5)).
  destruct H5 as [H5 _]; [discriminate|].
  exact (conj H1 (conj H2 (conj H3 (conj H4 H5)))).
Defined.

(** ** Arity in strict mode *)

(** The Boolector adapter refuses, in strict mode, every argument count
    outside the arity range of the operator. *)
Lemma Boolector_apply_fun_arity node_bits node_width self f args :
  len args < functions.arity_min f
  \/ functions.exceeds (len args) (functions.arity_max f) = true ->
  BoolectorSolver.apply_fun node_bits node_width true self (PyFun f) args
  = Raise (ValueError "In strict mode you must respect function arity").
Proof.
  intros H. unfold BoolectorSolver.apply_fun, BoolectorSolver.arity_violation.
  destruct H as [H | ->].
  - assert ((len args <? functions.arity_min f) = true) as -> by lia.
    reflexivity.
  - by rewrite orb_true_r.
Qed.

(** [Equals] on one or three terms is refused, on two it is built. *)
Lemma Boolector_Equals_arity node_bits node_width self
      s1 o1 h1 t1 c1 s2 o2 h2 t2 c2 s3 o3 h3 t3 c3 :
  let a := PyTerm s1 o1 h1 t1 c1 in
  let b := PyTerm s2 o2 h2 t2 c2 in
  let c := PyTerm s3 o3 h3 t3 c3 in
  BoolectorSolver.apply_fun node_bits node_width true self (PyFun Equals) [a]
  = Raise (ValueError "In strict mode you must respect function arity")
  /\ BoolectorSolver.apply_fun node_bits node_width true self (PyFun Equals) [a; b; c]
     = Raise (ValueError "In strict mode you must respect function arity")
  /\ BoolectorSolver.apply_fun node_bits node_width true self (PyFun Equals) [a; b]
     = Return (PyTerm self (PyFun Equals) (PyNative "Eq" [h1; h2]) Bool [a; b]).
Proof. repeat split. Qed.

(** The entry of [Equals] in the CVC4 table. *)
Lemma CVC4_lookup_Equals oargs :
  CVC4Solver.lookup_fun (PyOperator (PyFunction "Equals") oargs)
  = Return (CVC4Solver.kind "EQUAL").
Proof. reflexivity. Qed.

(** C5.  In strict mode the CVC4 adapter applies [Equals] to a single term,
    and to three terms, without any arity error of its own: it builds the
    native expression over the handles it was given and wraps it. *)
Theorem CVC4_apply_fun_strict_no_arity_check :
  forall (CVC4Term : pyval -> pyval -> pyval -> list pyval -> result pyval)
         self s1 o1 h1 t1 c1 s2 o2 h2 t2 c2 s3 o3 h3 t3 c3,
    let Equals_op := PyOperator (PyFunction "Equals") [] in
    let a := PyTerm s1 o1 h1 t1 c1 in
    let b := PyTerm s2 o2 h2 t2 c2 in
    let c := PyTerm s3 o3 h3 t3 c3 in
    CVC4Solver.apply_fun CVC4Term true self Equals_op [a]
    = CVC4Term self Equals_op
        (PyNative "mkExpr" [PyNative "EQUAL" []; PyTuple [h1]]) [a]
    /\ CVC4Solver.apply_fun CVC4Term true self Equals_op [a; b; c]
       = CVC4Term self Equals_op
           (PyNative "mkExpr" [PyNative "EQUAL" []; PyTuple [h1; h2; h3]]) [a; b; c].
Proof.
  intros. unfold CVC4Solver.apply_fun. subst Equals_op.
  rewrite CVC4_lookup_Equals. split; reflexivity.
Qed.

(** ** Assertions *)

(** Both adapters refuse a term whose sort is not [Bool] and leave the
    instance as it was. *)
Lemma Assert_non_Bool_term sv o h t c :
  t <> Bool ->
  (forall s, BoolectorSolver.Assert (PyTerm sv o h t c) s
             = (Raise (ValueError "Can only assert formulas of sort Bool."), s))
  /\ (forall s, CVC4Solver.Assert (PyTerm sv o h t c) s
                = (Raise (ValueError "Can only assert formulas of sort Bool."), s)).
Proof. intros Ht. split; intros s; by destruct t. Qed.

(** The Boolector adapter asserts a list of [Bool] terms one by one and
    records each handle. *)
Lemma Boolector_Assert_Bool_terms l : forall s,
  forallb is_Bool_term l = true ->
  BoolectorSolver.Assert (PyList l) s
  = (Return (),
     {| BoolectorSolver._assertions := BoolectorSolver._assertions s ++ handles l;
        BoolectorSolver._btor_asserted := BoolectorSolver._btor_asserted s ++ handles l;
        BoolectorSolver._btor_opts := BoolectorSolver._btor_opts s;
        BoolectorSolver.sat := BoolectorSolver.sat s |}).
Proof.
  simpl. induction l as [|x l IH]; intros s Hl.
  - simpl. unfold ret, handles. simpl. rewrite !app_nil_r. by destruct s.
  - simpl in Hl. apply andb_true_iff in Hl as [Hx Hl].
    destruct x; try discriminate Hx.
    destruct srt; try discriminate Hx.
    simpl. unfold bind at 1. simpl.
    rewrite IH by done. simpl. unfold handles. simpl.
    by rewrite <- !app_assoc.
Qed.

(** The CVC4 adapter takes a bare boolean, in either mode: the sort test
    passes on its type and the engine is given a boolean constant. *)
Lemma CVC4_Assert_bare_bool b s :
  CVC4Solver.Assert (PyBool b) s
  = (Return (),
     {| CVC4Solver._smt_assertions :=
          CVC4Solver._smt_assertions s ++ [PyNative "mkBoolConst" [PyBool b]];
        CVC4Solver._smt_logic := CVC4Solver._smt_logic s;
        CVC4Solver._smt_options := CVC4Solver._smt_options s;
        CVC4Solver.sat := CVC4Solver.sat s |}).
Proof. reflexivity. Qed.

(** Given a list, the facade takes a bare boolean as well: it turns it into
    a theory constant of sort [Bool] and hands that to the adapter. *)
Lemma facade_Assert_bare_bool_in_list {S} tc (sa : pyval -> M S unit) gi it b (s : S) :
  smt.Assert tc sa gi it (PyList [PyBool b]) s
  = bind (tc Bool (PyBool b)) (fun d => bind (sa d) (fun _ => ret ())) s.
Proof.
  unfold smt.Assert, bind, lift. simpl. unfold smt.assert_one, bind. simpl.
  by destruct (tc Bool (PyBool b) s) as [[d|e] s'].
Qed.

(** C6.  A bare boolean is not accepted everywhere: the Boolector adapter
    reads its attribute [sort] and ends in an [AttributeError], and the
    facade, handed the boolean itself, indexes it and ends in a [TypeError];
    in both cases nothing is asserted. *)
Theorem Assert_bare_bool_rejected :
  forall (b : bool),
    (forall s, BoolectorSolver.Assert (PyBool b) s = (Raise (AttributeError "sort"), s))
    /\ (forall S (tc : sort -> pyval -> M S pyval) (sa : pyval -> M S unit)
               gi it (s : S),
          smt.Assert tc sa gi it (PyBool b) s
          = (Raise (TypeError "object is not subscriptable"), s)).
Proof. intros b. split; reflexivity. Qed.

(** ** Checking and querying *)

(** A loop keeps every observation of the state that its body keeps. *)
Lemma for_each_keeps {S A B} (f : S -> B) (body : A -> M S unit) :
  (forall x s, f (snd (body x s)) = f s) ->
  forall l s, f (snd (for_each body l s)) = f s.
Proof.
  intros Hbody l. induction l as [|x l IH]; intros s; [reflexivity|].
  simpl. unfold bind. specialize (Hbody x s).
  destruct (body x s) as [[[]|e] s']; simpl in *; [|done].
  by rewrite IH.
Qed.

Lemma Boolector_assert_one_sat x s :
  BoolectorSolver.sat (snd (BoolectorSolver.assert_one x s)) = BoolectorSolver.sat s.
Proof.
  unfold BoolectorSolver.assert_one, bind, lift.
  destruct (attr_sort x) as [v|]; simpl; [|done].
  destruct v as [| | | | | | |srt| | | | | | | |]; try done.
  destruct srt; try done.
  by destruct (attr_solver_term x).
Qed.

Lemma CVC4_assert_one_sat x s :
  CVC4Solver.sat (snd (CVC4Solver.assert_one x s)) = CVC4Solver.sat s.
Proof.
  unfold CVC4Solver.assert_one.
  by destruct (CVC4Solver.not_bool (CVC4Solver.sort_or_type x)).
Qed.

Lemma Boolector_step_sat s c :
  BoolectorSolver.sat (BoolectorSolver.step s c) = sat_after c (BoolectorSolver.sat s).
Proof.
  destruct c as [x|native|l|o v|]; simpl; try done.
  - destruct x; try apply Boolector_assert_one_sat.
    apply (for_each_keeps BoolectorSolver.sat), Boolector_assert_one_sat.
  - destruct l; try done. simpl. by case_decide.
  - unfold BoolectorSolver.set_option.
    destruct (BoolectorSolver.unhashable o); [done|].
    destruct o; try done. simpl. by case_decide.
Qed.

Lemma CVC4_step_sat s c :
  CVC4Solver.sat (CVC4Solver.step s c) = sat_after c (CVC4Solver.sat s).
Proof.
  destruct c as [x|native|l|o v|]; simpl; try done.
  - destruct x; try apply CVC4_assert_one_sat.
    apply (for_each_keeps CVC4Solver.sat), CVC4_assert_one_sat.
  - by destruct native.
Qed.

Lemma sat_of_cons c calls before :
  sat_of (c :: calls) before = sat_of calls (sat_after c before).
Proof.
  unfold sat_of. simpl. destruct (last_check calls); [done|]. by destruct c.
Qed.

Lemma Boolector_session_sat calls : forall s,
  BoolectorSolver.sat (foldl BoolectorSolver.step s calls)
  = sat_of calls (BoolectorSolver.sat s).
Proof.
  induction calls as [|c calls IH]; intros s; [reflexivity|].
  simpl. by rewrite IH, Boolector_step_sat, sat_of_cons.
Qed.

Lemma CVC4_session_sat calls : forall s,
  CVC4Solver.sat (foldl CVC4Solver.step s calls)
  = sat_of calls (CVC4Solver.sat s).
Proof.
  induction calls as [|c calls IH]; intros s; [reflexivity|].
  simpl. by rewrite IH, CVC4_step_sat, sat_of_cons.
Qed.

(** C8, as the claim states it, fails: a native verdict of unknown and one
    of unsat give the same return value, [False], and leave the same
    instance behind, in both adapters. *)
Lemma unknown_reported_as_unsat :
  BoolectorSolver.check_sat UNKNOWN BoolectorSolver.init
  = BoolectorSolver.check_sat UNSAT BoolectorSolver.init
  /\ fst (BoolectorSolver.check_sat UNKNOWN BoolectorSolver.init) = false
  /\ CVC4Solver.check_sat UNKNOWN CVC4Solver.init
     = CVC4Solver.check_sat UNSAT CVC4Solver.init
  /\ fst (CVC4Solver.check_sat UNKNOWN CVC4Solver.init) = false.
Proof. repeat split. Qed.

(** C8, amended.  [check_sat] returns one of two values: [True] when the
    engine's verdict is sat and [False] otherwise, and stores the same value
    in [sat]; after a verdict of unknown the return value and the instance
    are the same as after unsat. *)
Theorem check_sat_two_valued :
  forall (native : sat_result) (sb : BoolectorSolver.t) (sc : CVC4Solver.t),
    let verdict := if decide (native = SAT) then true else false in
    fst (BoolectorSolver.check_sat native sb) = verdict
    /\ BoolectorSolver.sat (snd (BoolectorSolver.check_sat native sb)) = Some verdict
    /\ fst (CVC4Solver.check_sat native sc) = verdict
    /\ CVC4Solver.sat (snd (CVC4Solver.check_sat native sc)) = Some verdict
    /\ BoolectorSolver.check_sat UNKNOWN sb = BoolectorSolver.check_sat UNSAT sb
    /\ CVC4Solver.check_sat UNKNOWN sc = CVC4Solver.check_sat UNSAT sc.
Proof. intros native sb sc. by destruct native. Qed.

(** C7, as the claim states it, fails in the facade: with the Boolector
    backend active and a check that found sat, [get_value] raises
    [NotImplementedError] and returns no result wrapper. *)
Lemma facade_get_value_after_sat :
  let g := smt.run Z3Solver.simple [smt.do_set_solver "Boolector"; smt.do_check_sat SAT] in
  smt.sat g = Some true
  /\ fst (smt.get_value PyNone bool_p g)
     = Raise (NotImplementedError
                "Deprecating results so waiting to just do get value correctly with terms").
Proof. vm_compute. by split. Qed.

(** C7, amended.  On an adapter instance, after any session of calls:
    [get_value] raises "Solver has not been run" when the session holds no
    check, raises "Problem is unsat" when the verdict of its last check was
    not sat, and after a last verdict of sat returns the result wrapper for
    the term (in the Boolector adapter, for a term of sort [Bool] or
    [BitVec]).  The facade's [get_value] raises [NotImplementedError] for
    every term in every state. *)
Theorem get_value_by_solve_state :
  forall (calls : list call) (sv o h : pyval) (t : sort) (c : list pyval),
    let var := PyTerm sv o h t c in
    (last_check calls = None ->
       BoolectorSolver.get_value var (BoolectorSolver.run calls)
       = Raise (RuntimeError "Solver has not been run")
       /\ CVC4Solver.get_value var (CVC4Solver.run calls)
          = Raise (RuntimeError "Solver has not been run"))
    /\ (forall native, last_check calls = Some native -> native <> SAT ->
          BoolectorSolver.get_value var (BoolectorSolver.run calls)
          = Raise (RuntimeError "Problem is unsat")
          /\ CVC4Solver.get_value var (CVC4Solver.run calls)
             = Raise (RuntimeError "Problem is unsat"))
    /\ (last_check calls = Some SAT ->
          CVC4Solver.get_value var (CVC4Solver.run calls)
          = Return (PyResult (CVC4_wrapper t) (PyNative "getValue" [h]))
          /\ (t <> Int -> t <> Real ->
              BoolectorSolver.get_value var (BoolectorSolver.run calls)
              = Return (PyResult "BoolectorBitVecResult" h)))
    /\ (forall self g,
          smt.get_value self var g
          = (Raise (NotImplementedError
                      "Deprecating results so waiting to just do get value correctly with terms"),
             g)).
Proof.
  intros calls sv o h t c var.
  unfold BoolectorSolver.get_value, CVC4Solver.get_value,
    BoolectorSolver.run, CVC4Solver.run.
  rewrite Boolector_session_sat, CVC4_session_sat. unfold sat_of.
  split; [|split; [|split]].
  - by intros ->.
  - intros native -> Hn. by destruct native.
  - intros ->. split; [by destruct t|]. intros Hi Hr. by destruct t.
  - reflexivity.
Qed.

Lemma get_value_by_solve_state_witness :
  (BoolectorSolver.get_value bool_p (BoolectorSolver.run [call_Assert bool_p])
   = Raise (RuntimeError "Solver has not been run"))
  /\ (CVC4Solver.get_value bool_p (CVC4Solver.run [call_check_sat UNKNOWN; call_Assert bool_p])
      = Raise (RuntimeError "Problem is unsat"))
  /\ (BoolectorSolver.get_value bool_p
        (BoolectorSolver.run [call_Assert bool_p; call_check_sat UNSAT; call_check_sat SAT])
      = Return (PyResult "BoolectorBitVecResult"
                  (PyNative "Var" [PyNative "BitVecSort" [PyInt 1]; PyStr "p"]))).
Proof.
  split; [|split].
  - apply (get_value_by_solve_state [call_Assert bool_p]). reflexivity.
  - apply (get_value_by_solve_state [call_check_sat UNKNOWN; call_Assert bool_p]
             (PySolver BoolectorSolver_cls 0) (PyFun No_op)
             (PyNative "Var" [PyNative "BitVecSort" [PyInt 1]; PyStr "p"]) Bool []
          ) with (native := UNKNOWN); [reflexivity | discriminate].
  - apply (get_value_by_solve_state
             [call_Assert bool_p; call_check_sat UNSAT; call_check_sat SAT]);
      [reflexivity | discriminate | discriminate].
Defined.

(** ** Options *)

(** Called with two arguments, the method [set_logic] of any instance
    raises and leaves the instance as it is. *)
Lemma solver_set_logic_two_arguments Z3m a b i :
  smt.solver_set_logic Z3m [a; b] i
  = (Raise (TypeError "set_logic() takes 2 positional arguments"), i).
Proof. by destruct i. Qed.

(** The adapters' own [set_option] does reach the engine. *)
Lemma CVC4_set_option_configures o v s :
  CVC4Solver._smt_options (snd (CVC4Solver.set_option o v s))
  = (CVC4Solver._smt_options s ++ [(o, PyNative "SExpr" [v])])%list.
Proof. reflexivity. Qed.

(** C10.  The facade's [set_option] never configures anything: for every
    option name and value it calls [set_logic] of the active adapter with
    both arguments, which raises a [TypeError] (an [AttributeError] when no
    backend is active), and every instance, with the options its engine
    holds, is left unchanged. *)
Theorem facade_set_option_always_raises :
  forall (Z3m : Z3Solver.methods) (optionstr value : pyval) (g : smt.globals),
    smt.set_option Z3m optionstr value g
    = (Raise (match smt.active g with
              | Some _ => TypeError "set_logic() takes 2 positional arguments"
              | None => AttributeError "set_logic"
              end),
       g).
Proof.
  intros Z3m optionstr value g.
  unfold smt.set_option, smt.on_solver, smt.active.
  destruct (smt._solver g) as [r|] eqn:Hr; simpl; [|done].
  destruct (smt.heap g !! r) as [i|] eqn:Hi; simpl; [|done].
  rewrite solver_set_logic_two_arguments.
  rewrite list_insert_id by done.
  destruct g; simpl in *. by subst.
Qed.

(** ** The solver cache *)

Lemma times_app name log1 log2 :
  smt.times name (log1 ++ log2) = (smt.times name log1 + smt.times name log2)%nat.
Proof. unfold smt.times. by rewrite filter_app, length_app. Qed.

Lemma times_one name other :
  smt.times name [other] = if decide (other = name) then 1%nat else 0%nat.
Proof.
  unfold smt.times. rewrite filter_cons, filter_nil. by case_decide.
Qed.

Lemma cache_ok_initial : cache_ok smt.initial.
Proof.
  intros name. simpl.
  destruct (decide (name = "CVC4")) as [->|]; [by split; [|eexists]|].
  destruct (decide (name = "Z3")) as [->|]; [by split; [|eexists]|].
  destruct (decide (name = "Boolector")) as [->|]; [by split; [|eexists]|].
  by rewrite !lookup_insert_ne, lookup_singleton_ne by done.
Qed.

(** The invariant reads the cache, the size of the heap and the log only. *)
Lemma cache_ok_frame g g' :
  smt.__solver_cache g' = smt.__solver_cache g ->
  length (smt.heap g') = length (smt.heap g) ->
  smt.constructions g' = smt.constructions g ->
  cache_ok g -> cache_ok g'.
Proof. intros Hc Hh Hl Hok name. specialize (Hok name). by rewrite Hc, Hh, Hl. Qed.

(** A method call on the active instance changes that instance in place. *)
Lemma on_solver_frame {A} name (m : M smt.instance A) g :
  let g' := snd (smt.on_solver name m g) in
  smt._solver g' = smt._solver g
  /\ smt.__solver_cache g' = smt.__solver_cache g
  /\ length (smt.heap g') = length (smt.heap g)
  /\ smt.constructions g' = smt.constructions g.
Proof.
  unfold smt.on_solver. cbv zeta.
  destruct (smt._solver g) as [r|] eqn:Hr; [|done].
  destruct (smt.heap g !! r) as [i|]; [|done].
  destruct (m i) as [res i']. simpl. by rewrite length_insert.
Qed.

Lemma set_solver_keeps_invariant name g :
  cache_ok g -> cache_ok (snd (smt.set_solver name g)).
Proof.
  intros Hok. unfold smt.set_solver.
  pose proof (Hok name) as Hname.
  destruct (smt.__solver_cache g !! name) as [[r|]|] eqn:Hc; [by apply (cache_ok_frame g) | | done].
  destruct Hname as [Hzero [i Hi]]. rewrite Hi. simpl.
  intros name'. simpl. specialize (Hok name').
  rewrite length_app, times_app, times_one. simpl.
  destruct (decide (name = name')) as [<-|Hne].
  - rewrite lookup_insert_eq, Hzero. split; [lia | done].
  - rewrite lookup_insert_ne by done.
    destruct (smt.__solver_cache g !! name') as [[r|]|]; rewrite Nat.add_0_r; [|done..].
    destruct Hok. split; [lia | done].
Qed.

Lemma exec_keeps_invariant Z3m g c :
  cache_ok g -> cache_ok (smt.exec Z3m g c).
Proof.
  intros Hok. destruct c as [n|l|o v|native| |m]; simpl.
  - by apply set_solver_keeps_invariant.
  - destruct (on_solver_frame "set_logic" (smt.solver_set_logic Z3m [l]) g)
      as (_ & ? & ? & ?). by apply (cache_ok_frame g).
  - destruct (on_solver_frame "set_logic" (smt.solver_set_logic Z3m [o; v]) g)
      as (_ & ? & ? & ?). by apply (cache_ok_frame g).
  - destruct (on_solver_frame "check_sat" (smt.solver_check_sat Z3m native) g)
      as (_ & ? & ? & ?).
    unfold smt.check_sat.
    destruct (smt.on_solver "check_sat" (smt.solver_check_sat Z3m native) g)
      as [[b|e] g']; by apply (cache_ok_frame g).
  - destruct (on_solver_frame "reset" (smt.solver_reset Z3m) g)
      as (_ & ? & ? & ?). by apply (cache_ok_frame g).
  - destruct (on_solver_frame "method" (fun i => (Return (), m i)) g)
      as (_ & ? & ? & ?). by apply (cache_ok_frame g).
Qed.

(** Every state the client can reach satisfies the invariant. *)
Lemma run_invariant Z3m commands : cache_ok (smt.run Z3m commands).
Proof.
  unfold smt.run. generalize cache_ok_initial. generalize smt.initial.
  induction commands as [|c commands IH]; intros g Hok; [done|].
  simpl. by apply IH, exec_keeps_invariant.
Qed.

(** Activating a name whose slot is filled only repoints [_solver]. *)
Lemma set_solver_cached name r g :
  smt.__solver_cache g !! name = Some (Some r) ->
  smt.set_solver name g
  = (Return (),
     {| smt._solver := Some r; smt.__solver_cache := smt.__solver_cache g;
        smt.sat := smt.sat g; smt.heap := smt.heap g;
        smt.constructions := smt.constructions g |}).
Proof. intros H. unfold smt.set_solver. by rewrite H. Qed.

(** Activating any name keeps every filled slot, the instance it refers to
    and the number of times its class was called. *)
Lemma set_solver_keeps_cached other name r g :
  cache_ok g ->
  smt.__solver_cache g !! name = Some (Some r) ->
  let g1 := snd (smt.set_solver other g) in
  smt.__solver_cache g1 !! name = Some (Some r)
  /\ smt.heap g1 !! r = smt.heap g !! r
  /\ smt.times name (smt.constructions g1) = smt.times name (smt.constructions g).
Proof.
  intros Hok Hname. cbv zeta. unfold smt.set_solver.
  pose proof (Hok name) as Hr. rewrite Hname in Hr. destruct Hr as [Hlt _].
  destruct (smt.__solver_cache g !! other) as [[r'|]|] eqn:Hother; [done| |done].
  destruct (smt.__solver_map other) as [i|]; [|done]. simpl.
  assert (other <> name) as Hne by congruence.
  rewrite lookup_insert_ne by done.
  rewrite lookup_app_l by done.
  rewrite times_app, times_one. rewrite decide_False by done.
  by rewrite Nat.add_0_r.
Qed.

(** C9.  In every state the client can reach, the adapter class of each
    backend name has been called at most once.  Activating a name whose slot
    is empty calls the class, once, and caches the new instance; activating
    a name whose slot is filled, directly or after activating any other
    name in between, succeeds, makes the cached reference active again,
    calls no class, and finds the instance on the heap as it was, list of
    assertions included. *)
Theorem set_solver_constructs_once :
  forall (Z3m : Z3Solver.methods) (commands : list smt.command) (name other : string),
    let g := smt.run Z3m commands in
    (smt.times name (smt.constructions g) <= 1)%nat
    /\ (smt.__solver_cache g !! name = Some None ->
          let g1 := snd (smt.set_solver name g) in
          smt.times name (smt.constructions g) = 0%nat
          /\ smt.times name (smt.constructions g1) = 1%nat
          /\ smt._solver g1 = Some (length (smt.heap g))
          /\ smt.__solver_cache g1 !! name = Some (Some (length (smt.heap g)))
          /\ (exists i, smt.__solver_map name = Some i
                        /\ smt.heap g1 = (smt.heap g ++ [i])%list))
    /\ (forall r, smt.__solver_cache g !! name = Some (Some r) ->
          let g1 := snd (smt.set_solver other g) in
          let g2 := snd (smt.set_solver name g1) in
          is_Some (smt.heap g !! r)
          /\ snd (smt.set_solver name g)
             = {| smt._solver := Some r; smt.__solver_cache := smt.__solver_cache g;
                  smt.sat := smt.sat g; smt.heap := smt.heap g;
                  smt.constructions := smt.constructions g |}
          /\ fst (smt.set_solver name g1) = Return ()
          /\ smt._solver g2 = Some r
          /\ smt.heap g2 !! r = smt.heap g !! r
          /\ smt.constructions g2 = smt.constructions g1
          /\ smt.times name (smt.constructions g2) = smt.times name (smt.constructions g)).
Proof.
  intros Z3m commands name other g.
  pose proof (run_invariant Z3m commands) as Hok. fold g in Hok.
  pose proof (Hok name) as Hname.
  split; [|split].
  - destruct (smt.__solver_cache g !! name) as [[r|]|]; [|destruct Hname|]; lia.
  - intros Hc. rewrite Hc in Hname. destruct Hname as [Hzero [i Hi]].
    cbv zeta. unfold smt.set_solver. rewrite Hc, Hi. simpl.
    rewrite times_app, times_one, decide_True, lookup_insert_eq, Hzero by done.
    repeat split; eauto.
  - intros r Hc. rewrite Hc in Hname. destruct Hname as [Hlt _].
    destruct (set_solver_keeps_cached other name r g Hok Hc) as (Hc1 & Hh1 & Ht1).
    cbv zeta. rewrite (set_solver_cached name r g Hc).
    rewrite (set_solver_cached name r _ Hc1). simpl.
    split; [by apply lookup_lt_is_Some|]. by repeat split.
Qed.

(** The scenario of the spec: assert on Boolector, switch to CVC4, switch
    back, and read the assertions of the active backend. *)
Example switch_and_back :
  let g := smt.run Z3Solver.simple
             [smt.do_set_solver "Boolector";
              smt.do_method (Boolector_method (BoolectorSolver.Assert bool_p));
              smt.do_set_solver "CVC4";
              smt.do_set_solver "Boolector"] in
  fst (smt.assertions Z3Solver.simple g)
  = Return [PyNative "Var" [PyNative "BitVecSort" [PyInt 1]; PyStr "p"]]
  /\ smt._solver g = Some 0%nat
  /\ smt.constructions g = ["Boolector"; "CVC4"].
Proof. vm_compute. by repeat split. Qed.

Lemma set_solver_constructs_once_witness :
  let g := smt.run Z3Solver.simple
             [smt.do_set_solver "Boolector";
              smt.do_method (Boolector_method (BoolectorSolver.Assert bool_p))] in
  let g2 := snd (smt.set_solver "Boolector" (snd (smt.set_solver "CVC4" g))) in
  smt._solver g2 = Some 0%nat
  /\ smt.heap g2 !! 0%nat = smt.heap g !! 0%nat
  /\ smt.times "Z3" (smt.constructions (snd (smt.set_solver "Z3" g))) = 1%nat.
Proof.
  pose proof (set_solver_constructs_once Z3Solver.simple
                [smt.do_set_solver "Boolector";
                 smt.do_method (Boolector_method (BoolectorSolver.Assert bool_p))]
                "Boolector" "CVC4") as (_ & _ & Hback).
  pose proof (set_solver_constructs_once Z3Solver.simple
                [smt.do_set_solver "Boolector";
                 smt.do_method (Boolector_method (BoolectorSolver.Assert bool_p))]
                "Z3" "CVC4") as (_ & Hfirst & _).
  destruct (Hback 0%nat) as (_ & _ & _ & H1 & H2 & _); [by vm_compute|].
  destruct Hfirst as (_ & H3 & _); [by vm_compute|].
  exact (conj H1 (conj H2 H3)).
Defined.

(** * Further properties of the dispatch layer *)

(** ** Building and applying operators *)

Lemma unpack_list_form l : functions.unpack [PyList l] = l.
Proof. reflexivity. Qed.

(** A function that is not indexed enforces its least arity in both modes
    and its greatest arity in strict mode only; when it applies, it passes
    every argument on, under an operator that holds no index. *)
Theorem gen_operator_plain_arity :
  forall (strict : bool) (name : string) (fd : smt.fdata) (args : list pyval),
    smt.num_indices fd = 0 ->
    functions.unpack args = args ->
    0 < len args ->
    (len args < smt.min_arity fd ->
       smt.__gen_operator strict (PyFunction name) fd args
       = Exception (ValueError "Expected {} inputs to operator but received {}"))
    /\ (smt.min_arity fd <= len args -> len args <= smt.max_arity fd ->
          smt.__gen_operator strict (PyFunction name) fd args
          = Call_apply_fun (PyOperator (PyFunction name) []) args)
    /\ (smt.min_arity fd <= len args -> smt.max_arity fd < len args ->
          smt.__gen_operator strict (PyFunction name) fd args
          = if strict
            then Exception (ValueError "In strict mode and received {} args when max arity = ")
            else Call_apply_fun (PyOperator (PyFunction name) []) args).
Proof.
  intros strict name fd args Hidx Hun Hpos.
  unfold smt.__gen_operator. rewrite Hun, Hidx.
  assert ((len args =? 0) = false) as -> by lia. simpl.
  destruct (slices_at_zero args) as [-> ->].
  split; [|split].
  - intros Hlt. by assert ((0 + smt.min_arity fd <=? len args) = false) as -> by lia.
  - intros Hmin Hmax.
    assert ((0 + smt.min_arity fd <=? len args) = true) as -> by lia.
    assert ((smt.max_arity fd <? len args) = false) as -> by lia.
    by rewrite andb_false_r.
  - intros Hmin Hmax.
    assert ((0 + smt.min_arity fd <=? len args) = true) as -> by lia.
    assert ((smt.max_arity fd <? len args) = true) as -> by lia.
    by destruct strict.
Qed.

Lemma gen_operator_plain_arity_witness :
  smt.__gen_operator true (PyFunction "Equals")
    {| smt.num_indices := 0; smt.min_arity := 2; smt.max_arity := 2 |} [bv8]
  = Exception (ValueError "Expected {} inputs to operator but received {}")
  /\ smt.__gen_operator false (PyFunction "Equals")
       {| smt.num_indices := 0; smt.min_arity := 2; smt.max_arity := 2 |} [bv8; bv8; bv8]
     = Call_apply_fun (PyOperator (PyFunction "Equals") []) [bv8; bv8; bv8].
Proof.
  split.
  - apply (gen_operator_plain_arity true "Equals"
             {| smt.num_indices := 0; smt.min_arity := 2; smt.max_arity := 2 |} [bv8]);
      [reflexivity | reflexivity | by compute | by compute].
  - apply (gen_operator_plain_arity false "Equals"
             {| smt.num_indices := 0; smt.min_arity := 2; smt.max_arity := 2 |}
             [bv8; bv8; bv8]);
      [reflexivity | reflexivity | by compute | by compute | by compute].
Defined.

(** Binding the indices first and applying in one step agree: in permissive
    mode the one-step call hands to [apply_fun] exactly the operator that
    the call with the indices alone returns, together with the operands. *)
Theorem gen_operator_bind_then_apply :
  forall (name : string) (fd : smt.fdata) (idx ops : list pyval),
    functions.unpack idx = idx ->
    functions.unpack (idx ++ ops)%list = (idx ++ ops)%list ->
    len idx = smt.num_indices fd ->
    0 < len ops ->
    smt.min_arity fd <= len ops ->
    smt.func false name fd idx = Value (PyOperator (PyFunction name) idx)
    /\ smt.func false name fd (idx ++ ops)%list
       = Call_apply_fun (PyOperator (PyFunction name) idx) ops.
Proof.
  intros name fd idx ops Hun1 Hun2 Hidx Hops Hmin.
  unfold smt.func, smt.__gen_operator. rewrite Hun1, Hun2.
  assert (len (idx ++ ops)%list = len idx + len ops) as Hlen
    by (unfold len; rewrite length_app; lia).
  split.
  - by assert ((len idx =? smt.num_indices fd) = true) as -> by lia.
  - rewrite Hlen.
    assert ((len idx + len ops =? smt.num_indices fd) = false) as -> by lia.
    assert ((len idx + len ops =? 0) = false) as -> by (unfold len in *; lia).
    assert ((smt.num_indices fd + smt.min_arity fd <=? len idx + len ops) = true)
      as -> by lia.
    simpl. rewrite <- Hidx. by destruct (slices_at_length idx ops) as [-> ->].
Qed.

Lemma gen_operator_bind_then_apply_witness :
  smt.func false "Extract" Extract_fdata [PyInt 7; PyInt 0]
  = Value (PyOperator (PyFunction "Extract") [PyInt 7; PyInt 0])
  /\ smt.func false "Extract" Extract_fdata [PyInt 7; PyInt 0; bv8]
     = Call_apply_fun (PyOperator (PyFunction "Extract") [PyInt 7; PyInt 0]) [bv8].
Proof.
  apply (gen_operator_bind_then_apply "Extract" Extract_fdata [PyInt 7; PyInt 0] [bv8]);
    [reflexivity | reflexivity | reflexivity | by compute | by compute].
Defined.

(** In strict mode the whole argument count, indices included, is held
    against [max_arity]: a call with arguments, more of them than that and
    not exactly as many as the indices, raises a [ValueError] and applies
    nothing. *)
Theorem gen_operator_strict_counts_indices :
  forall (name : string) (fd : smt.fdata) (args : list pyval),
    functions.unpack args = args ->
    len args <> smt.num_indices fd ->
    len args <> 0 ->
    smt.max_arity fd < len args ->
    exists msg,
      smt.__gen_operator true (PyFunction name) fd args = Exception (ValueError msg).
Proof.
  intros name fd args Hun Hne H0 Hmax.
  unfold smt.__gen_operator. rewrite Hun.
  assert ((len args =? smt.num_indices fd) = false) as -> by lia.
  assert ((len args =? 0) = false) as -> by lia.
  assert ((smt.max_arity fd <? len args) = true) as -> by lia.
  simpl.
  destruct (smt.num_indices fd + smt.min_arity fd <=? len args); [eauto|].
  destruct (smt.num_indices fd =? 0); eauto.
Qed.

Lemma gen_operator_strict_counts_indices_witness :
  exists msg,
    smt.__gen_operator true (PyFunction "Extract") Extract_fdata [PyInt 7; PyInt 0; bv8]
    = Exception (ValueError msg).
Proof.
  apply (gen_operator_strict_counts_indices "Extract" Extract_fdata [PyInt 7; PyInt 0; bv8]);
    [reflexivity | by compute | by compute | by compute].
Defined.

(** An operator that holds its indices and whose family takes a fixed number
    of operands is never applied in strict mode: whatever it is given, the
    call returns an operator or raises. *)
Theorem gen_operator_bound_strict_never_applies :
  forall (func : pyval) (fargs : list pyval) (fd : smt.fdata) (args : list pyval),
    smt.min_arity fd = smt.max_arity fd ->
    forall fn' args',
      smt.__gen_operator true (PyOperator func fargs) fd args <> Call_apply_fun fn' args'.
Proof.
  intros func fargs fd args Heq fn' args'. unfold smt.__gen_operator.
  destruct (len fargs =? smt.num_indices fd); simpl; [|discriminate].
  rewrite Heq.
  destruct (smt.max_arity fd <? len (functions.unpack args)); simpl; discriminate.
Qed.

Lemma gen_operator_bound_strict_never_applies_witness :
  smt.__gen_operator true (PyOperator (PyFunction "Extract") [PyInt 7; PyInt 0])
    Extract_fdata [bv8; bv8]
  <> Call_apply_fun (PyOperator (PyFunction "Extract") [PyInt 7; PyInt 0]) [bv8; bv8].
Proof.
  apply (gen_operator_bound_strict_never_applies
           (PyFunction "Extract") [PyInt 7; PyInt 0] Extract_fdata [bv8; bv8]).
  reflexivity.
Defined.

(** A single list and the same values given one by one are the same call:
    for [__gen_operator], for calling any class of [functions.py], and, when
    the list is not empty, for the facade's [_And] and [_Or]. *)
Theorem list_form_agrees :
  forall (strict : bool) (l : list pyval),
    functions.unpack l = l ->
    (forall fn fd,
        smt.__gen_operator strict fn fd [PyList l] = smt.__gen_operator strict fn fd l)
    /\ (forall f, functions.call strict f [PyList l] = functions.call strict f l)
    /\ (l <> [] ->
        smt._And strict [PyList l] = smt._And strict l
        /\ smt._Or strict [PyList l] = smt._Or strict l).
Proof.
  intros strict l Hun.
  assert (forall fn fd,
             smt.__gen_operator strict fn fd [PyList l] = smt.__gen_operator strict fn fd l)
    as Hgen.
  { intros fn fd. unfold smt.__gen_operator. by rewrite unpack_list_form, Hun. }
  split; [exact Hgen|]. split.
  - intros f.
    destruct f; unfold functions.call, functions.And_call, functions.Or_call,
      functions.nary_call, functions.FunctionBase_call;
      by rewrite unpack_list_form, Hun.
  - intros Hne. unfold smt._And, smt._Or, smt.nary.
    destruct strict; [by rewrite !Hgen|].
    rewrite unpack_list_form, Hun.
    destruct l as [|x l']; [done|].
    destruct x; try done. simpl in Hun. by destruct items.
Qed.

Lemma list_form_agrees_witness :
  functions.call false And [PyList [bv8; bool_p]] = functions.call false And [bv8; bool_p]
  /\ smt._Or true [PyList [bv8; bool_p]] = smt._Or true [bv8; bool_p].
Proof.
  destruct (list_form_agrees false [bv8; bool_p] eq_refl) as (_ & H1 & _).
  destruct (list_form_agrees true [bv8; bool_p] eq_refl) as (_ & _ & H2).
  split; [apply H1 | apply H2; discriminate].
Defined.

(** ** The operator classes *)

(** With a second or third argument that is not a term, [Ite.osort] goes on
    to format its consistency error, which reads [sort] off both. *)
Lemma Ite_osort_not_terms cond a b :
  functions.is_term a && functions.is_term b = false ->
  functions.Ite_osort [cond; a; b]
  = (_ ← getattr "sort" (attr_sort a);
     _ ← getattr "sort" (attr_sort b);
     Raise (ValueError "Ite needs to have a consistent output sort.")).
Proof.
  intros H. destruct a; destruct b; try discriminate H; reflexivity.
Qed.

(** [Ite.osort] never reads the condition and never raises its second
    [ValueError] (the one for an output sort that cannot be determined).  On
    three arguments it returns the sort of the second when the second and
    third are terms.  Otherwise it formats the consistency error, reading
    [sort] off both: that ends in [AttributeError] when one of the two has no
    such attribute (a number, a string, a boolean, [None]) and in the
    consistency error when both have one, a list having its sorting
    method. *)
Theorem Ite_osort_outcomes :
  forall (cond a b : pyval),
    (functions.is_term a && functions.is_term b = true ->
       functions.osort Ite [cond; a; b] = functions.arg_sort 0 [a]
       /\ exists t, functions.osort Ite [cond; a; b] = Return (PySort t))
    /\ (functions.is_term a && functions.is_term b = false ->
          functions.osort Ite [cond; a; b]
          = match attr_sort a, attr_sort b with
            | Some _, Some _ =>
                Raise (ValueError "Ite needs to have a consistent output sort.")
            | _, _ => Raise (AttributeError "sort")
            end)
    /\ (forall cond', functions.osort Ite [cond'; a; b] = functions.osort Ite [cond; a; b])
    /\ (forall args,
          functions.osort Ite args
          <> Raise (ValueError "Can't determine output sort based on inputs")).
Proof.
  intros cond a b. split; [|split; [|split]].
  - intros H. apply andb_true_iff in H as [Ha Hb].
    destruct a; try discriminate Ha. destruct b; try discriminate Hb.
    split; [reflexivity | eexists; reflexivity].
  - intros H. simpl. rewrite Ite_osort_not_terms by done.
    by destruct (attr_sort a), (attr_sort b).
  - reflexivity.
  - intros args. simpl.
    destruct args as [|c [|x [|y [|z rest]]]]; try discriminate.
    destruct (functions.is_term x && functions.is_term y) eqn:H.
    + apply andb_true_iff in H as [Hx Hy].
      destruct x; try discriminate Hx. destruct y; try discriminate Hy. discriminate.
    + rewrite Ite_osort_not_terms by done.
      by destruct (attr_sort x), (attr_sort y).
Qed.

Lemma Ite_osort_outcomes_witness :
  functions.osort Ite [PyBool true; bv8; bool_p] = Return (PySort (BitVec 8))
  /\ functions.osort Ite [bool_p; bv8; PyInt 0] = Raise (AttributeError "sort")
  /\ functions.osort Ite [bool_p; bv8; PyList []]
     = Raise (ValueError "Ite needs to have a consistent output sort.").
Proof.
  destruct (Ite_osort_outcomes (PyBool true) bv8 bool_p) as (Hterms & _).
  destruct (Hterms eq_refl) as [Ht _].
  destruct (Ite_osort_outcomes bool_p bv8 (PyInt 0)) as (_ & Hint & _).
  destruct (Ite_osort_outcomes bool_p bv8 (PyList [])) as (_ & Hlist & _).
  split; [|split].
  - rewrite Ht. reflexivity.
  - apply Hint. reflexivity.
  - apply Hlist. reflexivity.
Defined.

(** The [and]-chain over a list of sort attributes is true exactly when no
    entry is [None]. *)
Lemma and_chain_sorts args : forall acc,
  truthy (foldl and_ acc (smtutils.sorts_list args))
  = truthy acc && forallb functions.is_term args.
Proof.
  induction args as [|x args IH]; intros acc; simpl.
  - by rewrite andb_true_r.
  - rewrite IH. unfold and_ at 1.
    destruct (truthy acc) eqn:Hacc; simpl.
    + by destruct x.
    + rewrite Hacc. by destruct x.
Qed.

Lemma bvbinops_osort_cons x rest :
  functions.bvbinops_osort (x :: rest)
  = if forallb functions.is_term (x :: rest)
    then functions.arg_sort 0 [x]
    else Raise (ValueError "bvadd requires consistent sorts").
Proof.
  unfold functions.bvbinops_osort. simpl.
  pose proof (and_chain_sorts rest (default PyNone (smtutils.term_sort x))) as Hch.
  destruct (truthy (foldl and_ (default PyNone (smtutils.term_sort x)) (smtutils.sorts_list rest)))
    eqn:Ht; simpl; symmetry in Hch; destruct x; simpl in *; try discriminate Hch;
    by rewrite ?Hch.
Qed.

Lemma bvbinop_osort f args :
  is_bvbinop f = true -> functions.osort f args = functions.bvbinops_osort args.
Proof. by destruct f. Qed.

(** The binary bit-vector operators take the sort of their first argument
    and compare nothing: on terms only, the output sort is that of the
    first, whatever the sorts of the others; as soon as one argument is not a
    term, the call raises the consistency error. *)
Theorem bvbinops_osort_outcomes :
  forall (f : FunctionBase) (x : pyval) (rest : list pyval),
    is_bvbinop f = true ->
    functions.osort f (x :: rest)
    = if forallb functions.is_term (x :: rest)
      then functions.arg_sort 0 [x]
      else Raise (ValueError "bvadd requires consistent sorts").
Proof.
  intros f x rest Hf. rewrite (bvbinop_osort f) by done. apply bvbinops_osort_cons.
Qed.

Lemma bvbinops_osort_outcomes_witness :
  functions.osort bvadd [bool_p; bv8] = Return (PySort Bool)
  /\ functions.osort bvshl [bv8; PyInt 1]
     = Raise (ValueError "bvadd requires consistent sorts").
Proof.
  split.
  - apply (bvbinops_osort_outcomes bvadd bool_p [bv8]). reflexivity.
  - apply (bvbinops_osort_outcomes bvshl bv8 [PyInt 1]). reflexivity.
Defined.

(** Calling an operator reaches an adapter only in permissive mode, only
    through the [solver] of a term among the arguments, and then with the
    operator itself and all the arguments as they were given. *)
Theorem call_dispatch_sound :
  forall (strict : bool) (f : FunctionBase) (args : list pyval) (s fn : pyval)
         (passed : list pyval),
    functions.call strict f args = Call_solver_apply_fun s fn passed ->
    strict = false
    /\ fn = PyFun f
    /\ passed = functions.unpack args
    /\ exists t, In t passed /\ functions.is_term t = true /\ attr_solver t = Some s.
Proof.
  intros strict f args s fn passed.
  assert (forall self first l,
             functions.dispatch self first l = Call_solver_apply_fun s fn passed ->
             fn = PyFun self /\ passed = l
             /\ functions.is_term first = true /\ attr_solver first = Some s) as Hd.
  { intros self first l. unfold functions.dispatch.
    destruct first; simpl; try discriminate. intros [= -> <- <-]. by repeat split. }
  assert (functions.nary_call (match f with Or => false | _ => true end) strict f args
          = Call_solver_apply_fun s fn passed ->
          strict = false /\ fn = PyFun f /\ passed = functions.unpack args
          /\ exists t, In t passed /\ functions.is_term t = true /\ attr_solver t = Some s)
    as Hnary.
  { unfold functions.nary_call. destruct strict; [discriminate|].
    destruct (functions.unpack args) as [|x [|y l]]; try discriminate.
    intros H. apply Hd in H as (-> & -> & Ht & Hs).
    repeat split; try done. exists x. repeat split; try done. by left. }
  destruct f; try exact Hnary;
    (unfold functions.call, functions.FunctionBase_call;
     destruct strict; [discriminate|];
     destruct (functions.unpack args) as [|x l] eqn:Hun; [discriminate|];
     destruct (List.filter functions.is_term (x :: l)) as [|t ts] eqn:Hfil; [discriminate|];
     intros H; apply Hd in H as (-> & -> & Ht & Hs);
     repeat split; try done; exists t; repeat split; try done;
     assert (In t (List.filter functions.is_term (x :: l))) as Hin
       by (rewrite Hfil; by left);
     by apply filter_In in Hin as [Hin _]).
Qed.

Lemma call_dispatch_sound_witness :
  PyFun Equals = PyFun Equals
  /\ [PyInt 0; bv8] = functions.unpack [PyList [PyInt 0; bv8]].
Proof.
  destruct (call_dispatch_sound false Equals [PyList [PyInt 0; bv8]]
              (PySolver BoolectorSolver_cls 0) (PyFun Equals) [PyInt 0; bv8] eq_refl)
    as (_ & H1 & H2 & _).
  exact (conj H1 H2).
Defined.

(** [__eq__] on operators is equality of the class and of the parameters:
    two instances are equal exactly when they are the same operator, so
    [extract(7,0)] equals itself and differs from [extract(6,0)]. *)
Theorem FunctionBase_eq_spec :
  forall f g : FunctionBase, FunctionBase_eq f g = true <-> f = g.
Proof.
  intros f g. unfold FunctionBase_eq. split.
  - intros H. apply andb_true_iff in H as [Hc Hp].
    destruct f, g; try discriminate Hc; try reflexivity.
    simpl in Hp. apply andb_true_iff in Hp as [H1 H2].
    apply andb_true_iff in H2 as [H2 _]. f_equal; lia.
  - intros <-. destruct f; try reflexivity.
    simpl. by rewrite !Z.eqb_refl.
Qed.

(** ** The Boolector adapter *)

Lemma bind_Return {A B} (a : A) (k : A -> result B) : (Return a ≫= k) = k a.
Proof. reflexivity. Qed.

Lemma terms_handles l :
  forallb functions.is_term l = true ->
  map (fun arg => default arg (attr_solver_term arg)) l = handles l.
Proof.
  induction l as [|x l IH]; [done|]. simpl. intros H.
  apply andb_true_iff in H as [Hx Hl]. unfold handles in *. simpl.
  destruct x; try discriminate Hx. simpl. by rewrite IH.
Qed.

Lemma for_each_app {S A} (body : A -> M S unit) l1 l2 s :
  for_each body (l1 ++ l2) s = bind (for_each body l1) (fun _ => for_each body l2) s.
Proof.
  revert s. induction l1 as [|x l1 IH]; intros s; [done|].
  simpl. unfold bind. destruct (body x s) as [[[]|e] s']; [|done].
  rewrite IH. reflexivity.
Qed.

(** The methods [And] and [Or] of the adapter nest to the left: one value is
    returned as it is, with no native call, and each further value wraps
    what was built so far in one more binary native operation. *)
Theorem Boolector_nary_left_fold :
  forall (native : string) (x z : pyval) (xs : list pyval),
    is_list x = false ->
    BoolectorSolver.nary native [x] = Return x
    /\ BoolectorSolver.nary native (x :: xs ++ [z])
       = (r ← BoolectorSolver.nary native (x :: xs); Return (PyNative native [r; z])).
Proof.
  intros native x z xs Hx. unfold BoolectorSolver.nary.
  destruct x; try discriminate Hx; (split; [done|]); simpl; by rewrite foldl_app.
Qed.

Lemma Boolector_nary_left_fold_witness :
  BoolectorSolver.nary "And" [PyInt 1; PyInt 2; PyInt 3]
  = (r ← BoolectorSolver.nary "And" [PyInt 1; PyInt 2];
     Return (PyNative "And" [r; PyInt 3])).
Proof.
  apply (Boolector_nary_left_fold "And" (PyInt 1) (PyInt 3) [PyInt 2]). reflexivity.
Defined.

(** Applying [And] or [Or] to two or more terms (whose first handle is not a
    list) succeeds in both modes, whatever the sorts of the terms: the new
    term has sort [Bool], keeps the arguments, and its handle is the left
    fold of the binary native operation over their handles. *)
Theorem Boolector_apply_fun_And_Or :
  forall node_bits node_width (strict : bool) (self : pyval)
         s o h t c (y : pyval) (rest : list pyval),
    let x := PyTerm s o h t c in
    is_list h = false ->
    forallb functions.is_term (y :: rest) = true ->
    BoolectorSolver.apply_fun node_bits node_width strict self (PyFun And) (x :: y :: rest)
    = Return (PyTerm self (PyFun And)
                (foldl (fun a b => PyNative "And" [a; b]) h (handles (y :: rest)))
                Bool (x :: y :: rest))
    /\ BoolectorSolver.apply_fun node_bits node_width strict self (PyFun Or) (x :: y :: rest)
       = Return (PyTerm self (PyFun Or)
                   (foldl (fun a b => PyNative "Or" [a; b]) h (handles (y :: rest)))
                   Bool (x :: y :: rest)).
Proof.
  intros node_bits node_width strict self s o h t c y rest x Hh Hterms.
  assert (BoolectorSolver.arity_violation strict And (x :: y :: rest) = false
          /\ BoolectorSolver.arity_violation strict Or (x :: y :: rest) = false)
    as [Ha Ho].
  { assert ((len (x :: y :: rest) <? 2) = false) as Hlen
      by (apply Z.ltb_ge; unfold len; simpl length; lia).
    unfold BoolectorSolver.arity_violation.
    change (functions.arity_min And) with 2. change (functions.arity_min Or) with 2.
    change (functions.arity_max And) with functions.inf.
    change (functions.arity_max Or) with functions.inf.
    rewrite Hlen. by rewrite andb_false_r. }
  unfold BoolectorSolver.apply_fun. rewrite Ha, Ho.
  change (functions.unpack (x :: y :: rest)) with (x :: y :: rest).
  rewrite !app_nil_r.
  change (map (fun arg => default arg (attr_solver_term arg)) (x :: y :: rest))
    with (h :: map (fun arg => default arg (attr_solver_term arg)) (y :: rest)).
  rewrite (terms_handles (y :: rest)) by done.
  unfold BoolectorSolver._BoolectorFuns, BoolectorSolver.nary.
  rewrite unpack_not_list by done. by split.
Qed.

Lemma Boolector_apply_fun_And_Or_witness :
  BoolectorSolver.apply_fun (fun _ => None) (fun _ => 8) true
    (PySolver BoolectorSolver_cls 0) (PyFun And) [bool_p; bv8; bool_p]
  = Return (PyTerm (PySolver BoolectorSolver_cls 0) (PyFun And)
              (foldl (fun a b => PyNative "And" [a; b])
                 (PyNative "Var" [PyNative "BitVecSort" [PyInt 1]; PyStr "p"])
                 (handles [bv8; bool_p]))
              Bool [bool_p; bv8; bool_p]).
Proof.
  apply (Boolector_apply_fun_And_Or (fun _ => None) (fun _ => 8) true
           (PySolver BoolectorSolver_cls 0)
           (PySolver BoolectorSolver_cls 0) (PyFun No_op)
           (PyNative "Var" [PyNative "BitVecSort" [PyInt 1]; PyStr "p"]) Bool []
           bv8 [bool_p]); reflexivity.
Defined.

(** Applying [extract(ub, lb)] to a term slices its handle with the two
    bounds and gives the result the sort [BitVec (ub - lb + 1)]; the sort of
    the operand is not looked at.  With [ub < lb] the call fails in the sort
    constructor. *)
Theorem Boolector_apply_fun_extract :
  forall node_bits node_width (strict : bool) (self : pyval) (ub lb : Z) s o h t c,
    let bv := PyTerm s o h t c in
    (lb <= ub ->
       BoolectorSolver.apply_fun node_bits node_width strict self (PyFun (extract ub lb)) [bv]
       = Return (PyTerm self (PyFun (extract ub lb))
                   (PyNative "Slice" [h; PyInt ub; PyInt lb])
                   (BitVec (ub - lb + 1)) [bv]))
    /\ (ub < lb ->
          BoolectorSolver.apply_fun node_bits node_width strict self (PyFun (extract ub lb)) [bv]
          = Raise (ValueError "InvalidSort")).
Proof.
  intros node_bits node_width strict self ub lb s o h t c bv.
  unfold BoolectorSolver.apply_fun.
  assert (BoolectorSolver.arity_violation strict (extract ub lb) [bv] = false) as ->
    by (by destruct strict).
  simpl. unfold functions.width. split; intros H.
  - by rewrite BitVec_init_ok by lia.
  - by rewrite BitVec_init_invalid by lia.
Qed.

Lemma Boolector_apply_fun_extract_witness :
  BoolectorSolver.apply_fun (fun _ => None) (fun _ => 8) true
    (PySolver BoolectorSolver_cls 0) (PyFun (extract 3 0)) [bv8]
  = Return (PyTerm (PySolver BoolectorSolver_cls 0) (PyFun (extract 3 0))
              (PyNative "Slice"
                 [PyNative "Var" [PyNative "BitVecSort" [PyInt 8]; PyStr "x"];
                  PyInt 3; PyInt 0])
              (BitVec (3 - 0 + 1)) [bv8])
  /\ BoolectorSolver.apply_fun (fun _ => None) (fun _ => 8) false
       (PySolver BoolectorSolver_cls 0) (PyFun (extract 0 3)) [bv8]
     = Raise (ValueError "InvalidSort").
Proof.
  split.
  - apply (Boolector_apply_fun_extract (fun _ => None) (fun _ => 8) true
             (PySolver BoolectorSolver_cls 0) 3 0). lia.
  - apply (Boolector_apply_fun_extract (fun _ => None) (fun _ => 8) false
             (PySolver BoolectorSolver_cls 0) 0 3). lia.
Defined.

(** The adapter counts its arguments before it unpacks a list: in strict
    mode the list form is refused for every operator that needs two or more
    arguments, whatever the list holds. *)
Theorem Boolector_strict_refuses_list_form :
  forall node_bits node_width (self : pyval) (f : FunctionBase) (l : list pyval),
    2 <= functions.arity_min f ->
    BoolectorSolver.apply_fun node_bits node_width true self (PyFun f) [PyList l]
    = Raise (ValueError "In strict mode you must respect function arity").
Proof.
  intros node_bits node_width self f l Hmin.
  unfold BoolectorSolver.apply_fun, BoolectorSolver.arity_violation.
  assert ((len [PyList l] <? functions.arity_min f) = true) as ->
    by (apply Z.ltb_lt; unfold len; simpl; lia).
  reflexivity.
Qed.

Lemma Boolector_strict_refuses_list_form_witness :
  BoolectorSolver.apply_fun (fun _ => None) (fun _ => 8) true
    (PySolver BoolectorSolver_cls 0) (PyFun Equals) [PyList [bv8; bv8]]
  = Raise (ValueError "In strict mode you must respect function arity").
Proof.
  apply (Boolector_strict_refuses_list_form (fun _ => None) (fun _ => 8)
           (PySolver BoolectorSolver_cls 0) Equals [bv8; bv8]).
  by compute.
Defined.

(** The arity guard binds as [(strict and too_few) or too_many]: too many
    arguments are refused in permissive mode as well, while too few are then
    let through, so that [Equals] on a single term reaches the engine. *)
Theorem Boolector_permissive_arity :
  forall node_bits node_width (self : pyval) (f : FunctionBase) (args : list pyval),
    (forall strict,
        functions.exceeds (len args) (functions.arity_max f) = true ->
        BoolectorSolver.apply_fun node_bits node_width strict self (PyFun f) args
        = Raise (ValueError "In strict mode you must respect function arity"))
    /\ (functions.exceeds (len args) (functions.arity_max f) = false ->
        BoolectorSolver.arity_violation false f args = false)
    /\ (forall s o h t c,
          BoolectorSolver.apply_fun node_bits node_width false self (PyFun Equals)
            [PyTerm s o h t c]
          = Return (PyTerm self (PyFun Equals) (PyNative "Eq" [h]) Bool [PyTerm s o h t c])).
Proof.
  intros node_bits node_width self f args. split; [|split].
  - intros strict H. unfold BoolectorSolver.apply_fun, BoolectorSolver.arity_violation.
    by rewrite H, orb_true_r.
  - intros H. unfold BoolectorSolver.arity_violation. by rewrite H.
  - reflexivity.
Qed.

Lemma Boolector_permissive_arity_witness :
  BoolectorSolver.apply_fun (fun _ => None) (fun _ => 8) false
    (PySolver BoolectorSolver_cls 0) (PyFun Equals) [bv8; bv8; bv8]
  = Raise (ValueError "In strict mode you must respect function arity")
  /\ BoolectorSolver.arity_violation false Equals [bv8] = false.
Proof.
  destruct (Boolector_permissive_arity (fun _ => None) (fun _ => 8)
              (PySolver BoolectorSolver_cls 0) Equals [bv8; bv8; bv8]) as (H1 & _ & _).
  destruct (Boolector_permissive_arity (fun _ => None) (fun _ => 8)
              (PySolver BoolectorSolver_cls 0) Equals [bv8]) as (_ & H2 & _).
  split; [apply H1; reflexivity | apply H2; reflexivity].
Defined.

(** The adapter never turns a bare value into a constant: a binary
    bit-vector operator with an argument that is not a term fails in either
    mode, even where the native call was built (as for a shift by a host
    integer). *)
Theorem Boolector_bvbinop_needs_terms :
  forall node_bits node_width (strict : bool) (self : pyval) (f : FunctionBase)
         (args : list pyval),
    is_bvbinop f = true ->
    forallb functions.is_term (functions.unpack args) = false ->
    is_Return (BoolectorSolver.apply_fun node_bits node_width strict self (PyFun f) args)
    = false.
Proof.
  intros node_bits node_width strict self f args Hf Hterms.
  unfold BoolectorSolver.apply_fun.
  destruct (BoolectorSolver.arity_violation strict f args); [done|].
  destruct args as [|a args']; [done|].
  destruct (functions.unpack (a :: args')) as [|x rest]; [discriminate Hterms|].
  cbv zeta.
  destruct (BoolectorSolver._BoolectorFuns _ _ f _) as [expr|e]; [|done].
  rewrite bind_Return, (bvbinop_osort f), bvbinops_osort_cons, Hterms by done.
  reflexivity.
Qed.

Lemma Boolector_bvbinop_needs_terms_witness :
  is_Return (BoolectorSolver.apply_fun (fun _ => None) (fun _ => 8) false
               (PySolver BoolectorSolver_cls 0) (PyFun bvshl) [bv8; PyInt 1])
  = false.
Proof.
  apply (Boolector_bvbinop_needs_terms (fun _ => None) (fun _ => 8) false
           (PySolver BoolectorSolver_cls 0) bvshl [bv8; PyInt 1]);
    reflexivity.
Defined.

(** ** Assertions and sessions *)

Lemma Boolector_asserted_nil s : Boolector_asserted [] s = s.
Proof. unfold Boolector_asserted. rewrite !app_nil_r. by destruct s. Qed.

Lemma CVC4_asserted_nil s : CVC4_asserted [] s = s.
Proof. unfold CVC4_asserted. rewrite !app_nil_r. by destruct s. Qed.

Lemma Boolector_asserted_app hs1 hs2 s :
  Boolector_asserted hs2 (Boolector_asserted hs1 s) = Boolector_asserted (hs1 ++ hs2) s.
Proof. unfold Boolector_asserted. simpl. by rewrite !app_assoc. Qed.

Lemma CVC4_asserted_app hs1 hs2 s :
  CVC4_asserted hs2 (CVC4_asserted hs1 s) = CVC4_asserted (hs1 ++ hs2) s.
Proof. unfold CVC4_asserted. simpl. by rewrite !app_assoc. Qed.

Lemma Boolector_for_each_Bool_terms l : forall s,
  forallb is_Bool_term l = true ->
  for_each BoolectorSolver.assert_one l s = (Return (), Boolector_asserted (handles l) s).
Proof.
  induction l as [|x l IH]; intros s Hl.
  - simpl. unfold ret, handles. simpl. by rewrite Boolector_asserted_nil.
  - simpl in Hl. apply andb_true_iff in Hl as [Hx Hl].
    destruct x; try discriminate Hx. destruct srt; try discriminate Hx.
    simpl. unfold bind at 1. simpl.
    rewrite IH by done.
    unfold Boolector_asserted, handles. simpl. by rewrite <- !app_assoc.
Qed.

Lemma CVC4_for_each_accepted l : forall s,
  forallb CVC4_accepts l = true ->
  for_each CVC4Solver.assert_one l s = (Return (), CVC4_asserted (map CVC4_formula l) s).
Proof.
  induction l as [|x l IH]; intros s Hl.
  - simpl. unfold ret. by rewrite CVC4_asserted_nil.
  - simpl in Hl. apply andb_true_iff in Hl as [Hx Hl].
    simpl. unfold bind at 1. unfold CVC4Solver.assert_one at 1.
    unfold CVC4_accepts in Hx. apply negb_true_iff in Hx. rewrite Hx. simpl.
    rewrite IH by done.
    unfold CVC4_asserted, CVC4_formula. simpl. by rewrite <- !app_assoc.
Qed.

(** Asserting a list is not all-or-nothing: both adapters assert the
    constraints in order and stop at the first one they refuse, so the ones
    before it stay asserted and the ones after it are never looked at. *)
Theorem Assert_list_stops_at_first_refusal :
  forall (pre post : list pyval) (bad : pyval),
    (forallb is_Bool_term pre = true ->
     functions.is_term bad = true -> is_Bool_term bad = false ->
     forall s,
       BoolectorSolver.Assert (PyList (pre ++ bad :: post)) s
       = (Raise (ValueError "Can only assert formulas of sort Bool."),
          Boolector_asserted (handles pre) s))
    /\ (forallb CVC4_accepts pre = true ->
        CVC4_accepts bad = false ->
        forall s,
          CVC4Solver.Assert (PyList (pre ++ bad :: post)) s
          = (Raise (ValueError "Can only assert formulas of sort Bool."),
             CVC4_asserted (map CVC4_formula pre) s)).
Proof.
  intros pre post bad. split.
  - intros Hpre Hterm Hbad s. simpl.
    rewrite for_each_app. unfold bind at 1.
    rewrite Boolector_for_each_Bool_terms by done.
    destruct bad; try discriminate Hterm. by destruct srt.
  - intros Hpre Hbad s. simpl.
    rewrite for_each_app. unfold bind at 1.
    rewrite CVC4_for_each_accepted by done.
    simpl. unfold bind at 1. unfold CVC4Solver.assert_one at 1.
    unfold CVC4_accepts in Hbad. apply negb_false_iff in Hbad. by rewrite Hbad.
Qed.

Lemma Assert_list_stops_at_first_refusal_witness :
  BoolectorSolver.Assert (PyList [bool_p; bv8; bool_p]) BoolectorSolver.init
  = (Raise (ValueError "Can only assert formulas of sort Bool."),
     Boolector_asserted (handles [bool_p]) BoolectorSolver.init)
  /\ CVC4Solver.Assert (PyList [PyBool true; PyInt 1; bool_p]) CVC4Solver.init
     = (Raise (ValueError "Can only assert formulas of sort Bool."),
        CVC4_asserted (map CVC4_formula [PyBool true]) CVC4Solver.init).
Proof.
  split.
  - apply (Assert_list_stops_at_first_refusal [bool_p] [bool_p] bv8); reflexivity.
  - apply (Assert_list_stops_at_first_refusal [PyBool true] [bool_p] (PyInt 1));
      reflexivity.
Defined.

(** The CVC4 adapter asserts a list of [Bool] terms and bare booleans, mixed
    in any way, in order: a term goes to the engine as its handle and a bare
    boolean as a boolean constant; [assertions] then lists what was there
    before followed by these, each printed. *)
Theorem CVC4_Assert_accepted_list :
  forall (l : list pyval) (s : CVC4Solver.t),
    forallb CVC4_accepts l = true ->
    CVC4Solver.Assert (PyList l) s = (Return (), CVC4_asserted (map CVC4_formula l) s)
    /\ CVC4Solver.assertions (snd (CVC4Solver.Assert (PyList l) s))
       = (CVC4Solver.assertions s
          ++ map (fun x => PyNative "toString" [CVC4_formula x]) l)%list.
Proof.
  intros l s Hl. simpl. rewrite CVC4_for_each_accepted by done. split; [done|].
  unfold CVC4Solver.assertions. simpl. by rewrite map_app, map_map.
Qed.

Lemma CVC4_Assert_accepted_list_witness :
  CVC4Solver.Assert (PyList [PyBool false; bool_p]) CVC4Solver.init
  = (Return (), CVC4_asserted (map CVC4_formula [PyBool false; bool_p]) CVC4Solver.init).
Proof.
  apply (CVC4_Assert_accepted_list [PyBool false; bool_p] CVC4Solver.init). reflexivity.
Defined.

Lemma Boolector_assert_one_extends x s :
  exists k,
    BoolectorSolver._assertions (snd (BoolectorSolver.assert_one x s))
    = (BoolectorSolver._assertions s ++ k)%list
    /\ BoolectorSolver._btor_asserted (snd (BoolectorSolver.assert_one x s))
       = (BoolectorSolver._btor_asserted s ++ k)%list.
Proof.
  unfold BoolectorSolver.assert_one, bind, lift.
  destruct (attr_sort x) as [v|]; simpl; [|exists []; by rewrite !app_nil_r].
  destruct v as [| | | | | | |srt| | | | | | | |]; try (exists []; by rewrite !app_nil_r).
  destruct srt; try (exists []; by rewrite !app_nil_r).
  destruct (attr_solver_term x) as [h|]; simpl; [by exists [h]|].
  exists []. by rewrite !app_nil_r.
Qed.

Lemma Boolector_for_each_extends l : forall s,
  exists k,
    BoolectorSolver._assertions (snd (for_each BoolectorSolver.assert_one l s))
    = (BoolectorSolver._assertions s ++ k)%list
    /\ BoolectorSolver._btor_asserted (snd (for_each BoolectorSolver.assert_one l s))
       = (BoolectorSolver._btor_asserted s ++ k)%list.
Proof.
  induction l as [|x l IH]; intros s.
  - exists []. simpl. by rewrite !app_nil_r.
  - simpl. unfold bind.
    destruct (Boolector_assert_one_extends x s) as (k1 & H1 & H2).
    destruct (BoolectorSolver.assert_one x s) as [[[]|e] s1]; simpl in *.
    + destruct (IH s1) as (k2 & H3 & H4). exists (k1 ++ k2)%list.
      by rewrite H3, H4, H1, H2, !app_assoc.
    + by exists k1.
Qed.

Lemma Boolector_step_extends s c :
  c <> call_reset ->
  exists k,
    BoolectorSolver._assertions (BoolectorSolver.step s c)
    = (BoolectorSolver._assertions s ++ k)%list
    /\ BoolectorSolver._btor_asserted (BoolectorSolver.step s c)
       = (BoolectorSolver._btor_asserted s ++ k)%list.
Proof.
  intros Hc. destruct c as [x|native|l|o v|]; simpl; [| | | |done].
  - destruct x; try apply Boolector_assert_one_extends. apply Boolector_for_each_extends.
  - exists []. by rewrite !app_nil_r.
  - exists []. rewrite !app_nil_r. destruct l; try done. simpl. by case_decide.
  - exists []. rewrite !app_nil_r. unfold BoolectorSolver.set_option.
    destruct (BoolectorSolver.unhashable o); [done|].
    destruct o; try done. simpl. by case_decide.
Qed.

(** The list the Boolector adapter keeps for [assertions] is, after every
    session, exactly what its engine was handed through [Assert], in the
    same order. *)
Theorem Boolector_assertions_mirror_engine :
  forall calls : list call,
    BoolectorSolver.assertions (BoolectorSolver.run calls)
    = BoolectorSolver._btor_asserted (BoolectorSolver.run calls).
Proof.
  intros calls. unfold BoolectorSolver.assertions, BoolectorSolver.run.
  assert (BoolectorSolver._assertions BoolectorSolver.init
          = BoolectorSolver._btor_asserted BoolectorSolver.init) as Hinit by done.
  revert Hinit. generalize BoolectorSolver.init.
  induction calls as [|c calls IH]; intros s Hs; [done|].
  simpl. apply IH.
  assert (c = call_reset \/ c <> call_reset) as [->|Hc]
    by (destruct c; (by left) || (by right)); [done|].
  destruct (Boolector_step_extends s c Hc) as (k & -> & ->). by rewrite Hs.
Qed.

(** Without [reset] the list of assertions only grows: whatever a session
    goes on to do, what [assertions] returned before is a prefix of what it
    returns after. *)
Theorem Boolector_assertions_append_only :
  forall calls more : list call,
    no_reset more = true ->
    exists k,
      BoolectorSolver.assertions (BoolectorSolver.run (calls ++ more))
      = (BoolectorSolver.assertions (BoolectorSolver.run calls) ++ k)%list.
Proof.
  intros calls more. unfold BoolectorSolver.assertions, BoolectorSolver.run.
  rewrite foldl_app. generalize (foldl BoolectorSolver.step BoolectorSolver.init calls).
  induction more as [|c more IH]; intros s Hno.
  - exists []. simpl. by rewrite app_nil_r.
  - simpl in Hno. apply andb_true_iff in Hno as [Hc Hno]. simpl.
    destruct (IH (BoolectorSolver.step s c) Hno) as (k2 & ->).
    destruct (Boolector_step_extends s c) as (k1 & -> & _); [by destruct c|].
    exists (k1 ++ k2)%list. by rewrite app_assoc.
Qed.

Lemma Boolector_assertions_append_only_witness :
  exists k,
    BoolectorSolver.assertions
      (BoolectorSolver.run ([call_Assert bool_p] ++ [call_check_sat SAT; call_Assert bool_p]))
    = (BoolectorSolver.assertions (BoolectorSolver.run [call_Assert bool_p]) ++ k)%list.
Proof.
  apply (Boolector_assertions_append_only [call_Assert bool_p]
           [call_check_sat SAT; call_Assert bool_p]).
  reflexivity.
Defined.

(** [reset] starts the engine over but not the solve state: after it, the
    assertions are gone, yet [get_value] answers exactly as before, by the
    verdict of the last check. *)
Theorem reset_keeps_solve_state :
  forall (calls : list call) (var : pyval),
    BoolectorSolver.assertions (BoolectorSolver.run (calls ++ [call_reset])) = []
    /\ BoolectorSolver.get_value var (BoolectorSolver.run (calls ++ [call_reset]))
       = BoolectorSolver.get_value var (BoolectorSolver.run calls)
    /\ CVC4Solver.assertions (CVC4Solver.run (calls ++ [call_reset])) = []
    /\ CVC4Solver.get_value var (CVC4Solver.run (calls ++ [call_reset]))
       = CVC4Solver.get_value var (CVC4Solver.run calls).
Proof.
  intros calls var. unfold BoolectorSolver.run, CVC4Solver.run.
  rewrite !foldl_app. by repeat split.
Qed.

(** [set_logic] of the Boolector adapter only checks the name: it succeeds
    exactly for the strings QF_BV and QF_ABV and never changes the
    instance. *)
Theorem Boolector_set_logic_spec :
  forall (logicstr : pyval) (s : BoolectorSolver.t),
    snd (BoolectorSolver.set_logic logicstr s) = s
    /\ (fst (BoolectorSolver.set_logic logicstr s) = Return ()
        <-> logicstr = PyStr "QF_BV" \/ logicstr = PyStr "QF_ABV").
Proof.
  intros logicstr s. unfold BoolectorSolver.set_logic.
  destruct logicstr as [| | |l| | | | | | | | | | | |];
    try (split; [done|]; split; [discriminate | intros [?|?]; discriminate]).
  case_decide as Hl; simpl.
  - split; [done|]. split; [|done]. intros _.
    unfold BoolectorSolver._BoolectorLogics in Hl.
    apply elem_of_cons in Hl as [->|Hl]; [by left|].
    apply elem_of_cons in Hl as [->|Hl]; [by right|].
    by apply elem_of_nil in Hl.
  - split; [done|]. split; [discriminate|].
    intros [[= ->]|[= ->]]; exfalso; apply Hl; unfold BoolectorSolver._BoolectorLogics;
      set_solver.
Qed.

(** [set_option] of the Boolector adapter knows one option: for any other
    option name it returns without error and changes nothing; for
    [produce-models] it hands the engine the truth value of the argument. *)
Theorem Boolector_set_option_spec :
  forall (name : string) (value : pyval) (s : BoolectorSolver.t),
    (name <> "produce-models" ->
       BoolectorSolver.set_option (PyStr name) value s = (Return (), s))
    /\ fst (BoolectorSolver.set_option (PyStr "produce-models") value s) = Return ()
    /\ BoolectorSolver._btor_opts (snd (BoolectorSolver.set_option (PyStr "produce-models") value s))
       = (BoolectorSolver._btor_opts s ++ [("BTOR_OPT_MODEL_GEN", truthy value)])%list
    /\ BoolectorSolver.assertions (snd (BoolectorSolver.set_option (PyStr "produce-models") value s))
       = BoolectorSolver.assertions s.
Proof.
  intros name value s. split; [|by repeat split].
  intros Hne. unfold BoolectorSolver.set_option. by rewrite decide_False.
Qed.

Lemma Boolector_set_option_spec_witness :
  BoolectorSolver.set_option (PyStr "incremental") (PyBool true) BoolectorSolver.init
  = (Return (), BoolectorSolver.init).
Proof.
  apply (Boolector_set_option_spec "incremental" (PyBool true) BoolectorSolver.init).
  discriminate.
Defined.

(** ** The CVC4 adapter *)

Lemma mapM_handles_strict l :
  mapM (fun arg => getattr "solver_term" (attr_solver_term arg)) l
  = if forallb functions.is_term l then Return (handles l)
    else Raise (AttributeError "solver_term").
Proof.
  induction l as [|x l IH]; [done|].
  simpl. destruct x; simpl; try done.
  rewrite IH. unfold handles. simpl.
  by destruct (forallb functions.is_term l).
Qed.

Lemma CVC4_term_is_term x : CVC4Solver.is_CVC4Term x = true -> functions.is_term x = true.
Proof. by destruct x. Qed.

Lemma filter_none_CVC4 l :
  forallb (fun x => negb (CVC4Solver.is_CVC4Term x)) l = true ->
  List.filter CVC4Solver.is_CVC4Term l = [].
Proof.
  induction l as [|x l IH]; [done|]. simpl. intros H.
  apply andb_true_iff in H as [Hx Hl]. apply negb_true_iff in Hx.
  rewrite Hx. by apply IH.
Qed.

Lemma mapM_handles_permissive CVC4Term self cvc4term l :
  forallb CVC4Solver.is_CVC4Term l = true ->
  mapM (fun arg =>
          if CVC4Solver.is_CVC4Term arg then getattr "solver_term" (attr_solver_term arg)
          else
            s ← getattr "sort" (attr_sort cvc4term);
            match s with
            | PySort srt =>
                c ← CVC4Solver.theory_const CVC4Term self srt arg;
                getattr "solver_term" (attr_solver_term c)
            | _ => Raise (TypeError "sort expected")
            end) l
  = Return (handles l).
Proof.
  induction l as [|x l IH]; [done|]. simpl. intros H.
  apply andb_true_iff in H as [Hx Hl]. rewrite Hx.
  destruct x; try discriminate Hx. simpl. rewrite IH by done. reflexivity.
Qed.

(** In strict mode the CVC4 adapter coerces nothing: for an operator of its
    table and arguments that all are terms it applies the engine's
    expression builder to the native function and the handles, in order;
    if any argument has no handle it raises and builds nothing. *)
Theorem CVC4_apply_fun_strict :
  forall (CVC4Term : pyval -> pyval -> pyval -> list pyval -> result pyval)
         (self op : pyval) (f : CVC4Solver.cvc4fun) (args : list pyval) (x : pyval)
         (rest : list pyval),
    CVC4Solver.lookup_fun op = Return f ->
    functions.unpack args = x :: rest ->
    CVC4Solver.apply_fun CVC4Term true self op args
    = if forallb functions.is_term (x :: rest)
      then CVC4Term self op
             (PyNative "mkExpr" [CVC4_native_fun f op; PyTuple (handles (x :: rest))])
             (x :: rest)
      else Raise (AttributeError "solver_term").
Proof.
  intros CVC4Term self op f args x rest Hf Hun.
  unfold CVC4Solver.apply_fun. rewrite Hf, bind_Return.
  destruct args as [|a args']; [discriminate Hun|].
  rewrite Hun. unfold CVC4Solver.solver_args. rewrite mapM_handles_strict.
  destruct (forallb functions.is_term (x :: rest)); [|done].
  rewrite bind_Return. by destruct f.
Qed.

Lemma CVC4_apply_fun_strict_witness :
  CVC4Solver.apply_fun (fun _ _ _ _ => Return PyNone) true PyNone
    (PyOperator (PyFunction "Extract") [PyInt 7; PyInt 0]) [bv8]
  = Return PyNone
  /\ CVC4Solver.apply_fun (fun _ _ _ _ => Return PyNone) true PyNone
       (PyOperator (PyFunction "BVAdd") []) [bv8; PyInt 1]
     = Raise (AttributeError "solver_term").
Proof.
  split.
  - apply (CVC4_apply_fun_strict (fun _ _ _ _ => Return PyNone) PyNone
             (PyOperator (PyFunction "Extract") [PyInt 7; PyInt 0])
             (CVC4Solver.indexer "BitVectorExtract") [bv8] bv8 []); reflexivity.
  - apply (CVC4_apply_fun_strict (fun _ _ _ _ => Return PyNone) PyNone
             (PyOperator (PyFunction "BVAdd") [])
             (CVC4Solver.kind "BITVECTOR_PLUS") [bv8; PyInt 1] bv8 [PyInt 1]); reflexivity.
Defined.

(** In permissive mode the CVC4 adapter needs a CVC4 term among the
    arguments: when there is none (bare values, or terms of another adapter)
    it raises [IndexError]; when every argument is a CVC4 term it builds the
    same expression as in strict mode and makes no constant. *)
Theorem CVC4_apply_fun_permissive :
  forall (CVC4Term : pyval -> pyval -> pyval -> list pyval -> result pyval)
         (self op : pyval) (f : CVC4Solver.cvc4fun) (args : list pyval) (x : pyval)
         (rest : list pyval),
    CVC4Solver.lookup_fun op = Return f ->
    functions.unpack args = x :: rest ->
    (forallb (fun a => negb (CVC4Solver.is_CVC4Term a)) (x :: rest) = true ->
       CVC4Solver.apply_fun CVC4Term false self op args
       = Raise (IndexError "list index out of range"))
    /\ (forallb CVC4Solver.is_CVC4Term (x :: rest) = true ->
        CVC4Solver.apply_fun CVC4Term false self op args
        = CVC4Term self op
            (PyNative "mkExpr" [CVC4_native_fun f op; PyTuple (handles (x :: rest))])
            (x :: rest)).
Proof.
  intros CVC4Term self op f args x rest Hf Hun.
  unfold CVC4Solver.apply_fun. rewrite Hf, bind_Return.
  destruct args as [|a args']; [discriminate Hun|].
  rewrite Hun. unfold CVC4Solver.solver_args. split; intros H.
  - by rewrite filter_none_CVC4.
  - destruct (last (List.filter CVC4Solver.is_CVC4Term (x :: rest))) as [t|] eqn:Hlast.
    + rewrite mapM_handles_permissive by done. rewrite bind_Return. by destruct f.
    + exfalso. simpl in H. apply andb_true_iff in H as [Hx _].
      simpl in Hlast. rewrite Hx in Hlast.
      by apply last_None in Hlast.
Qed.

Lemma CVC4_apply_fun_permissive_witness :
  CVC4Solver.apply_fun (fun _ _ _ _ => Return PyNone) false PyNone
    (PyOperator (PyFunction "Equals") []) [PyInt 1; bv8]
  = Raise (IndexError "list index out of range").
Proof.
  apply (CVC4_apply_fun_permissive (fun _ _ _ _ => Return PyNone) PyNone
           (PyOperator (PyFunction "Equals") []) (CVC4Solver.kind "EQUAL")
           [PyInt 1; bv8] (PyInt 1) [bv8]); reflexivity.
Defined.

(** ** The facade's references *)

Lemma refs_ok_initial : refs_ok smt.initial.
Proof.
  split; [|split].
  - intros name. simpl. unfold backend_names.
    destruct (decide (name = "CVC4")) as [->|];
      [split; [intros _; repeat constructor | by eexists]|].
    destruct (decide (name = "Z3")) as [->|];
      [split; [intros _; repeat constructor | by eexists]|].
    destruct (decide (name = "Boolector")) as [->|];
      [split; [intros _; repeat constructor | by eexists]|].
    rewrite !lookup_insert_ne, lookup_singleton_ne by done.
    split; [by intros [? ?]|]. intros H.
    repeat (apply elem_of_cons in H as [H|H]; [done|]). by apply elem_of_nil in H.
  - discriminate.
  - intros n1 n2 r H1 _. simpl in H1.
    destruct (decide (n1 = "CVC4")) as [->|]; [done|].
    destruct (decide (n1 = "Z3")) as [->|]; [done|].
    destruct (decide (n1 = "Boolector")) as [->|]; [done|].
    by rewrite !lookup_insert_ne, lookup_singleton_ne in H1 by done.
Qed.

Lemma refs_ok_frame g g' :
  smt.__solver_cache g' = smt.__solver_cache g ->
  smt._solver g' = smt._solver g ->
  refs_ok g -> refs_ok g'.
Proof. intros Hc Hs. unfold refs_ok. by rewrite Hc, Hs. Qed.

Lemma set_solver_keeps_refs name g :
  cache_ok g -> refs_ok g -> refs_ok (snd (smt.set_solver name g)).
Proof.
  intros Hok (Hkeys & Hact & Hinj). unfold smt.set_solver.
  pose proof (Hok name) as Hname.
  destruct (smt.__solver_cache g !! name) as [[r|]|] eqn:Hc; [| |done].
  - simpl. split; [done|]. split; [|done]. intros r' [= <-]. by exists name.
  - destruct Hname as [_ [i Hi]]. rewrite Hi. simpl.
    split; [|split].
    + intros n. simpl. destruct (decide (name = n)) as [<-|Hne].
      * rewrite lookup_insert_eq. rewrite <- Hkeys, Hc. split; by eexists.
      * by rewrite lookup_insert_ne.
    + intros r' [= <-]. exists name. simpl. by rewrite lookup_insert_eq.
    + intros n1 n2 r. simpl.
      destruct (decide (name = n1)) as [<-|H1], (decide (name = n2)) as [<-|H2];
        rewrite ?lookup_insert_eq, ?lookup_insert_ne by done; try done.
      * intros [= <-] H. pose proof (Hok n2) as Hn. rewrite H in Hn. lia.
      * intros H [= <-]. pose proof (Hok n1) as Hn. rewrite H in Hn. lia.
      * apply Hinj.
Qed.

Lemma exec_keeps_refs Z3m g c :
  cache_ok g -> refs_ok g -> refs_ok (smt.exec Z3m g c).
Proof.
  intros Hok Hrefs. destruct c as [n|l|o v|native| |m]; simpl.
  - by apply set_solver_keeps_refs.
  - destruct (on_solver_frame "set_logic" (smt.solver_set_logic Z3m [l]) g)
      as (? & ? & _). by apply (refs_ok_frame g).
  - destruct (on_solver_frame "set_logic" (smt.solver_set_logic Z3m [o; v]) g)
      as (? & ? & _). by apply (refs_ok_frame g).
  - destruct (on_solver_frame "check_sat" (smt.solver_check_sat Z3m native) g)
      as (? & ? & _).
    unfold smt.check_sat.
    destruct (smt.on_solver "check_sat" (smt.solver_check_sat Z3m native) g)
      as [[b|e] g']; by apply (refs_ok_frame g).
  - destruct (on_solver_frame "reset" (smt.solver_reset Z3m) g)
      as (? & ? & _). by apply (refs_ok_frame g).
  - destruct (on_solver_frame "method" (fun i => (Return (), m i)) g)
      as (? & ? & _). by apply (refs_ok_frame g).
Qed.

Lemma run_refs_ok Z3m commands :
  cache_ok (smt.run Z3m commands) /\ refs_ok (smt.run Z3m commands).
Proof.
  unfold smt.run.
  generalize cache_ok_initial refs_ok_initial. generalize smt.initial.
  induction commands as [|c commands IH]; intros g Hok Hrefs; [done|].
  simpl. apply IH; [by apply exec_keeps_invariant | by apply exec_keeps_refs].
Qed.

(** In every state the client can reach, selecting a backend by any name
    other than the three keys of the cache raises [KeyError] and changes
    nothing, whatever was done before. *)
Theorem set_solver_unknown_name :
  forall (Z3m : Z3Solver.methods) (commands : list smt.command) (name : string),
    name ∉ backend_names ->
    smt.set_solver name (smt.run Z3m commands)
    = (Raise (KeyError name), smt.run Z3m commands).
Proof.
  intros Z3m commands name Hname.
  destruct (run_refs_ok Z3m commands) as [_ (Hkeys & _)].
  unfold smt.set_solver.
  destruct (smt.__solver_cache (smt.run Z3m commands) !! name) as [v|] eqn:Hc; [|done].
  exfalso. apply Hname, Hkeys. by eexists.
Qed.

Lemma set_solver_unknown_name_witness :
  smt.set_solver "Yices" (smt.run Z3Solver.simple [smt.do_set_solver "Z3"])
  = (Raise (KeyError "Yices"), smt.run Z3Solver.simple [smt.do_set_solver "Z3"]).
Proof.
  apply (set_solver_unknown_name Z3Solver.simple [smt.do_set_solver "Z3"] "Yices").
  unfold backend_names. intros H.
  repeat (apply elem_of_cons in H as [H|H]; [discriminate H|]).
  by apply elem_of_nil in H.
Defined.

Lemma on_solver_other {A} name (m : M smt.instance A) g r' :
  smt._solver g <> Some r' ->
  smt.heap (snd (smt.on_solver name m g)) !! r' = smt.heap g !! r'.
Proof.
  intros Hne. unfold smt.on_solver.
  destruct (smt._solver g) as [r|]; [|done].
  destruct (smt.heap g !! r) as [i|]; [|done].
  destruct (m i) as [res i']. simpl.
  apply list_lookup_insert_ne. congruence.
Qed.

(** In every state the client can reach, the active reference, if there is
    one, is the cached reference of one of the three names and points to an
    instance on the heap, so a call through the facade always finds an
    adapter; before any backend was selected every such call raises
    [AttributeError] and changes nothing. *)
Theorem facade_active_backend_is_live :
  forall (Z3m : Z3Solver.methods) (commands : list smt.command),
    let g := smt.run Z3m commands in
    (forall r, smt._solver g = Some r ->
       is_Some (smt.active g)
       /\ (exists name, name ∈ backend_names
                        /\ smt.__solver_cache g !! name = Some (Some r))
       /\ exists l, fst (smt.assertions Z3m g) = Return l)
    /\ (smt._solver g = None ->
        forall logicstr native self,
          smt.set_logic Z3m logicstr g = (Raise (AttributeError "set_logic"), g)
          /\ smt.check_sat Z3m native g = (Raise (AttributeError "check_sat"), g)
          /\ smt.reset Z3m self g = (Raise (AttributeError "reset"), g)
          /\ smt.assertions Z3m g = (Raise (AttributeError "assertions"), g)).
Proof.
  intros Z3m commands g.
  destruct (run_refs_ok Z3m commands) as [Hok (Hkeys & Hact & _)]. fold g in Hok, Hkeys, Hact.
  split.
  - intros r Hr. destruct (Hact r Hr) as [name Hname].
    pose proof (Hok name) as Hn. rewrite Hname in Hn. destruct Hn as [Hlt _].
    apply lookup_lt_is_Some in Hlt as [i Hi].
    split; [|split].
    + unfold smt.active. rewrite Hr. simpl. by eexists.
    + exists name. split; [|done]. apply Hkeys. by eexists.
    + unfold smt.assertions, smt.on_solver. rewrite Hr, Hi.
      destruct i; simpl; by eexists.
  - intros Hnone logicstr native self.
    unfold smt.set_logic, smt.check_sat, smt.reset, smt.assertions, smt.on_solver.
    by rewrite Hnone.
Qed.

Lemma facade_active_backend_is_live_witness :
  is_Some (smt.active (smt.run Z3Solver.simple [smt.do_set_solver "CVC4"]))
  /\ smt.assertions Z3Solver.simple (smt.run Z3Solver.simple [smt.do_reset])
     = (Raise (AttributeError "assertions"), smt.run Z3Solver.simple [smt.do_reset]).
Proof.
  destruct (facade_active_backend_is_live Z3Solver.simple [smt.do_set_solver "CVC4"])
    as [H1 _].
  destruct (facade_active_backend_is_live Z3Solver.simple [smt.do_reset]) as [_ H2].
  split.
  - apply (H1 0%nat). by vm_compute.
  - apply (H2 eq_refl PyNone SAT PyNone).
Defined.

(** Backends do not share an instance: in every state the client can reach,
    two different names that are cached refer to different instances, and
    whatever the client does next through the facade leaves the instance of
    a backend that is not the active one as it was. *)
Theorem facade_backends_isolated :
  forall (Z3m : Z3Solver.methods) (commands : list smt.command) (c : smt.command)
         (n1 n2 : string) (r1 r2 : nat),
    let g := smt.run Z3m commands in
    smt.__solver_cache g !! n1 = Some (Some r1) ->
    smt.__solver_cache g !! n2 = Some (Some r2) ->
    n1 <> n2 ->
    r1 <> r2
    /\ (smt._solver g = Some r1 ->
        smt.heap (smt.exec Z3m g c) !! r2 = smt.heap g !! r2).
Proof.
  intros Z3m commands c n1 n2 r1 r2 g H1 H2 Hne.
  destruct (run_refs_ok Z3m commands) as [Hok (_ & _ & Hinj)]. fold g in Hok, Hinj.
  assert (r1 <> r2) as Hr by (intros ->; by apply Hne, (Hinj n1 n2 r2)).
  split; [done|]. intros Hact.
  assert (smt._solver g <> Some r2) as Hother by congruence.
  destruct c as [n|l|o v|native| |m]; simpl.
  - by destruct (set_solver_keeps_cached n n2 r2 g Hok H2) as (_ & ? & _).
  - by apply on_solver_other.
  - by apply on_solver_other.
  - unfold smt.check_sat.
    pose proof (on_solver_other "check_sat" (smt.solver_check_sat Z3m native) g r2 Hother)
      as Hh.
    by destruct (smt.on_solver "check_sat" (smt.solver_check_sat Z3m native) g)
      as [[b|e] g'].
  - by apply on_solver_other.
  - by apply on_solver_other.
Qed.

Lemma facade_backends_isolated_witness :
  let g := smt.run Z3Solver.simple
             [smt.do_set_solver "Boolector"; smt.do_set_solver "CVC4"] in
  smt.heap (smt.exec Z3Solver.simple g smt.do_reset) !! 0%nat = smt.heap g !! 0%nat.
Proof.
  destruct (facade_backends_isolated Z3Solver.simple
              [smt.do_set_solver "Boolector"; smt.do_set_solver "CVC4"] smt.do_reset
              "CVC4" "Boolector" 1%nat 0%nat) as [_ H];
    [by vm_compute | by vm_compute | discriminate |].
  apply H. by vm_compute.
Defined.

(** ** The facade's [apply_fun] and [Assert] *)

Lemma comprehension_terms {S} (tc : pyval -> pyval -> M S pyval) hs ls_term l (s : S) :
  forallb functions.is_term l = true ->
  smt.comprehension
    (fun arg =>
       match attr_solver_term arg with
       | Some h => ret h
       | None => bind (lift (smt.value_sort hs ls_term)) (fun srt => tc srt arg)
       end) l s
  = (Return (handles l), s).
Proof.
  induction l as [|x l IH]; [done|]. simpl. intros H.
  apply andb_true_iff in H as [Hx Hl].
  destruct x; try discriminate Hx. simpl. unfold bind at 1. simpl.
  unfold bind at 1. by rewrite IH.
Qed.

Lemma comprehension_raises {S} (tc : pyval -> pyval -> M S pyval) hs ls_term e l (s : S) :
  smt.value_sort hs ls_term = Raise e ->
  forallb functions.is_term l = false ->
  smt.comprehension
    (fun arg =>
       match attr_solver_term arg with
       | Some h => ret h
       | None => bind (lift (smt.value_sort hs ls_term)) (fun srt => tc srt arg)
       end) l s
  = (Raise e, s).
Proof.
  intros He. induction l as [|x l IH]; [done|]. simpl. intros H.
  destruct (functions.is_term x) eqn:Hx.
  - simpl in H. destruct x; try discriminate Hx. simpl. unfold bind at 1. simpl.
    unfold bind at 1. by rewrite IH.
  - assert (attr_solver_term x = None) as -> by (by destruct x).
    unfold bind at 1. unfold bind at 1. unfold lift. by rewrite He.
Qed.

Lemma comprehension_first_bare {S} (tc : pyval -> pyval -> M S pyval) hs ls_term srt
    terms arg more e (s s' : S) :
  forallb functions.is_term terms = true ->
  functions.is_term arg = false ->
  smt.value_sort hs ls_term = Return srt ->
  tc srt arg s = (Raise e, s') ->
  smt.comprehension
    (fun arg =>
       match attr_solver_term arg with
       | Some h => ret h
       | None => bind (lift (smt.value_sort hs ls_term)) (fun srt => tc srt arg)
       end) (terms ++ arg :: more)%list s
  = (Raise e, s').
Proof.
  intros Hterms Harg Hsrt Htc. induction terms as [|t terms IH]; simpl.
  - assert (attr_solver_term arg = None) as -> by (by destruct arg).
    unfold bind at 1. unfold bind at 1. unfold lift. by rewrite Hsrt, Htc.
  - simpl in Hterms. apply andb_true_iff in Hterms as [Ht Hterms].
    destruct t; try discriminate Ht. simpl. unfold bind at 1. simpl.
    unfold bind at 1. by rewrite IH.
Qed.

(** The facade coerces nothing in strict mode, and in permissive mode reads
    the sort for a bare value off the last argument only.  A call with an
    argument that is not a term raises [AttributeError] in strict mode, and
    in permissive mode as well when the last argument is a host value
    without an attribute [sort] (a number, a string, a boolean); in both
    cases no adapter method is called and nothing changes.  A list does have
    that attribute: when the last argument is a list, its sorting method is
    what the adapter's [theory_const] is given as the sort of the first bare
    argument, and a refusal of the adapter is the outcome of the call. *)
Theorem facade_apply_fun_bare_values :
  forall (S : Type) (tc : pyval -> pyval -> M S pyval)
         (af : pyval -> list pyval -> list pyval -> M S pyval)
         (hs fname : pyval -> result pyval)
         (Term : pyval -> pyval -> list pyval -> result pyval)
         (fn x final : pyval) (rest : list pyval) (s : S),
    smt.is_Sequence x = false ->
    forallb functions.is_term (x :: rest) = false ->
    last (x :: rest) = Some final ->
    smt.apply_fun tc af hs fname Term true fn (x :: rest) s
    = (Raise (AttributeError "solver_term"), s)
    /\ (attr_sort final = None ->
        (forall call args, final <> PyNative call args) ->
        smt.apply_fun tc af hs fname Term false fn (x :: rest) s
        = (Raise (AttributeError "sort"), s))
    /\ (forall l terms arg more e s',
          final = PyList l ->
          x :: rest = (terms ++ arg :: more)%list ->
          forallb functions.is_term terms = true ->
          functions.is_term arg = false ->
          tc (PyMethod (PyList l) "sort") arg s = (Raise e, s') ->
          smt.apply_fun tc af hs fname Term false fn (x :: rest) s = (Raise e, s')).
Proof.
  intros S tc af hs fname Term fn x final rest s Hx Hterms Hlast.
  unfold smt.apply_fun. rewrite Hx, Hlast. split; [|split].
  - unfold bind at 1. unfold smt.facade_solver_args, lift.
    by rewrite mapM_handles_strict, Hterms.
  - intros Hfinal Hnative.
    assert (attr_solver_term final = None) as -> by (by destruct final).
    unfold bind at 1. unfold smt.facade_solver_args. simpl default.
    rewrite (comprehension_raises tc hs final (AttributeError "sort")); [done| |done].
    destruct final as [| | | | | | | | | | | | |cl ar| |]; try done.
    + simpl. simpl in Hfinal. by rewrite Hfinal.
    + by destruct (Hnative cl ar).
  - intros l terms arg more e s' -> Heq Hts Harg Htc.
    unfold bind at 1. unfold smt.facade_solver_args. simpl default. rewrite Heq.
    by rewrite (comprehension_first_bare tc hs (PyList l) (PyMethod (PyList l) "sort")
                  terms arg more e s s').
Qed.

Lemma facade_apply_fun_bare_values_witness :
  let tc := fun srt _ => match srt with
                         | PySort _ => ret PyNone
                         | _ => raise (KeyError "sort")
                         end in
  smt.apply_fun (S := unit) tc (fun _ _ _ => ret PyNone)
    (fun _ => Return PyNone) (fun _ => Return PyNone) (fun _ _ _ => Return PyNone)
    true (PyOperator (PyFunction "Equals") []) [bv8; PyInt 1] ()
  = (Raise (AttributeError "solver_term"), ())
  /\ smt.apply_fun (S := unit) tc (fun _ _ _ => ret PyNone)
       (fun _ => Return PyNone) (fun _ => Return PyNone) (fun _ _ _ => Return PyNone)
       false (PyOperator (PyFunction "Equals") []) [bv8; PyInt 1] ()
     = (Raise (AttributeError "sort"), ())
  /\ smt.apply_fun (S := unit) tc (fun _ _ _ => ret PyNone)
       (fun _ => Return PyNone) (fun _ => Return PyNone) (fun _ _ _ => Return PyNone)
       false (PyOperator (PyFunction "Equals") []) [bv8; PyInt 1; PyList []] ()
     = (Raise (KeyError "sort"), ()).
Proof.
  intros tc.
  destruct (facade_apply_fun_bare_values unit tc
              (fun _ _ _ => ret PyNone) (fun _ => Return PyNone) (fun _ => Return PyNone)
              (fun _ _ _ => Return PyNone) (PyOperator (PyFunction "Equals") [])
              bv8 (PyInt 1) [PyInt 1] () eq_refl eq_refl eq_refl) as (H1 & H2 & _).
  destruct (facade_apply_fun_bare_values unit tc
              (fun _ _ _ => ret PyNone) (fun _ => Return PyNone) (fun _ => Return PyNone)
              (fun _ _ _ => Return PyNone) (PyOperator (PyFunction "Equals") [])
              bv8 (PyList []) [PyInt 1; PyList []] () eq_refl eq_refl eq_refl)
    as (_ & _ & H3).
  split; [exact H1|]. split.
  - apply H2; [reflexivity | discriminate].
  - apply (H3 [] [bv8] (PyInt 1) [PyList []] (KeyError "sort") ()); reflexivity.
Defined.

(** When every argument is a term the facade behaves the same in both
    modes: it makes no theory constant and calls the adapter's [apply_fun]
    once, with the operator's name and indices and the arguments' handles
    in order, then wraps the result with the operator and the arguments. *)
Theorem facade_apply_fun_terms :
  forall (S : Type) (tc : pyval -> pyval -> M S pyval)
         (af : pyval -> list pyval -> list pyval -> M S pyval)
         (hs fname : pyval -> result pyval)
         (Term : pyval -> pyval -> list pyval -> result pyval)
         (strict : bool) (fn x : pyval) (rest : list pyval) (s : S),
    forallb functions.is_term (x :: rest) = true ->
    smt.apply_fun tc af hs fname Term strict fn (x :: rest) s
    = bind (lift (fname fn)) (fun name =>
      bind (lift (smt.fun_args fn)) (fun fargs =>
      bind (af name fargs (handles (x :: rest))) (fun s_term =>
      lift (Term fn s_term (x :: rest))))) s.
Proof.
  intros S tc af hs fname Term strict fn x rest s Hterms.
  unfold smt.apply_fun.
  assert (smt.is_Sequence x = false) as ->.
  { simpl in Hterms. apply andb_true_iff in Hterms as [Hx _]. by destruct x. }
  destruct (last (x :: rest)) as [la|] eqn:Hlast; [|by apply last_None in Hlast].
  unfold bind at 1. unfold smt.facade_solver_args.
  destruct strict.
  - unfold lift at 1. by rewrite mapM_handles_strict, Hterms.
  - by rewrite comprehension_terms.
Qed.

Lemma facade_apply_fun_terms_witness :
  smt.apply_fun (S := unit) (fun _ _ => ret PyNone)
    (fun name fargs hs => ret (PyNative "apply" hs))
    (fun _ => Return PyNone) (fun _ => Return (PyStr "Equals"))
    (fun fn t args => Return t)
    true (PyOperator (PyFunction "Equals") []) [bv8; bool_p] ()
  = (Return (PyNative "apply" (handles [bv8; bool_p])), ()).
Proof.
  apply (facade_apply_fun_terms unit (fun _ _ => ret PyNone)
           (fun name fargs hs => ret (PyNative "apply" hs))
           (fun _ => Return PyNone) (fun _ => Return (PyStr "Equals"))
           (fun fn t args => Return t) true (PyOperator (PyFunction "Equals") [])
           bv8 [bool_p] ()).
  reflexivity.
Defined.

(** The facade's [Assert] refuses before it calls: for a list or tuple
    whose first constraint is neither a [Bool] term nor a bare boolean, and
    for any string that is not empty (a string is taken apart as a sequence
    of characters), it raises the [ValueError] without calling any adapter
    method. *)
Theorem facade_Assert_refuses_first :
  forall (S : Type) (tc : sort -> pyval -> M S pyval) (sa : pyval -> M S unit)
         (gi : pyval -> result pyval) (it : pyval -> result (list pyval))
         (bad : pyval) (post : list pyval) (s : S),
    smt.is_Sequence bad = false ->
    CVC4_accepts bad = false ->
    smt.Assert tc sa gi it (PyList (bad :: post)) s
    = (Raise (ValueError "Can only assert formulas of sort Bool. "), s)
    /\ smt.Assert tc sa gi it (PyTuple (bad :: post)) s
       = (Raise (ValueError "Can only assert formulas of sort Bool. "), s)
    /\ (forall c rest,
          smt.Assert tc sa gi it (PyStr (String c rest)) s
          = (Raise (ValueError "Can only assert formulas of sort Bool. "), s)).
Proof.
  intros S tc sa gi it bad post s Hseq Hbad.
  unfold CVC4_accepts in Hbad. apply negb_false_iff in Hbad.
  unfold smt.Assert, bind, lift. simpl. rewrite Hseq. simpl.
  unfold bind, smt.assert_one. rewrite Hbad. by repeat split.
Qed.

Lemma facade_Assert_refuses_first_witness :
  smt.Assert (S := unit) (fun _ _ => ret PyNone) (fun _ => ret ())
    (fun _ => Return PyNone) (fun _ => Return []) (PyList [bv8; bool_p]) ()
  = (Raise (ValueError "Can only assert formulas of sort Bool. "), ()).
Proof.
  apply (facade_Assert_refuses_first unit (fun _ _ => ret PyNone) (fun _ => ret ())
           (fun _ => Return PyNone) (fun _ => Return []) bv8 [bool_p] ());
    reflexivity.
Defined.
